(** * Ground station telemetry core: ingestion, shared buffers, render bounds

    A shallow embedding of the telemetry part of [groundstation.py]:
    the module-level buffers, the [read_serial] loop, the position-plot
    part of [update_plot], [connect_serial] and [disconnect_serial], the
    command entry and the two small displays, followed by the
    properties of the specification that concern them.  The calls are
    first given as functions of the state, then taken apart into the
    statements at which the two threads of a session interleave.

    Python floats are IEEE binary64 values and are modelled by Rocq's
    primitive floats.  Library calls whose code is not part of the
    repository are kept as section variables: the text decoding of a raw
    line, the builtin [float()] on a string, and whether a call into the
    plotting library returns or raises. *)

From Stdlib Require Import ZArith String Ascii Floats Uint63.
From stdpp Require Import base list.

Local Open Scope Z_scope.

(** ** Python strings: [str.split] and [str.startswith] *)

(** [s.split(sep)] for a one-character separator: every occurrence of
    [sep] cuts, so a string with n separators gives n+1 parts and the
    empty string gives one empty part. *)
Fixpoint py_split (sep : ascii) (s : string) : list string :=
  match s with
  | EmptyString => [EmptyString]
  | String c r =>
      if Ascii.eqb c sep then EmptyString :: py_split sep r
      else match py_split sep r with
           | [] => [String c EmptyString]
           | h :: t => String c h :: t
           end
  end.

(** [s.startswith(p)] *)
Definition startswith (s p : string) : bool := String.prefix p s.

(** The characters of a string, and [sep.join(parts)]. *)
Fixpoint has_char (c : ascii) (s : string) : bool :=
  match s with
  | EmptyString => false
  | String d r => Ascii.eqb d c || has_char c r
  end.

Fixpoint join (sep : ascii) (parts : list string) : string :=
  match parts with
  | [] => EmptyString
  | [p] => p
  | p :: ps => (p ++ String sep (join sep ps))%string
  end.

Definition colon : ascii := ":"%char.
Definition comma : ascii := ","%char.

(** ** [collections.deque] with a maximum length *)

(** [d.append(x)] on a [deque(maxlen=n)]: the item is added on the right
    and, when the length then exceeds [n], one item is dropped on the
    left. *)
Definition deque_append {A : Type} (maxlen : nat) (x : A) (d : list A) : list A :=
  let d' := d ++ [x] in
  if decide (maxlen < length d')%nat then drop 1 d' else d'.

(** [n] successive appends *)
Definition deque_extend {A : Type} (maxlen : nat) (d xs : list A) : list A :=
  foldl (fun acc x => deque_append maxlen x acc) d xs.

(** ** Python numbers on binary64 *)

Inductive exn : Type := ValueError | IndexError | TypeError | OverflowError.

Inductive result (A : Type) : Type :=
  | Ok (a : A)
  | Raise (e : exn).
Arguments Ok {A} a.
Arguments Raise {A} e.

(** [int(f)]: truncation toward zero; [ValueError] on NaN and
    [OverflowError] on an infinity. *)
Definition py_int (f : float) : result Z :=
  match Prim2SF f with
  | S754_zero _ => Ok 0
  | S754_infinity _ => Raise OverflowError
  | S754_nan => Raise ValueError
  | S754_finite s m e =>
      let mag := Z.shiftl (Z.pos m) e in
      Ok (if s then - mag else mag)
  end.

(** [min(d)] and [max(d)] on a non-empty iterable: the first item is the
    candidate, and a later item replaces it when it compares strictly
    below (above) the candidate.  [None] stands for the [ValueError] on an
    empty iterable. *)
Definition py_min (d : list float) : option float :=
  match d with
  | [] => None
  | x :: xs => Some (foldl (fun m item => if PrimFloat.ltb item m then item else m) x xs)
  end.

Definition py_max (d : list float) : option float :=
  match d with
  | [] => None
  | x :: xs => Some (foldl (fun m item => if PrimFloat.ltb m item then item else m) x xs)
  end.

(** ** The module-level state *)

(** A quaternion array [np.array([x, y, z, w])]. *)
Definition quaternion : Type := list float.

Definition identity_quaternion : quaternion :=
  [0%float; 0%float; 0%float; 1%float].

Record State : Type := mkState {
  ser_is_open : bool;                    (* ser and ser.is_open *)
  running : bool;
  start_time : option float;
  latest_quaternion : list quaternion;   (* deque(maxlen=1) *)
  x_positions : list float;              (* deque(maxlen=500) *)
  y_positions : list float;
  z_positions : list float;
  engine_states : list bool;
  raw_serial_lines : list string;        (* deque(maxlen=200) *)
  last_toggle_time : option float        (* read_serial.last_toggle_time; None: no attribute yet *)
}.

(** The state right after the module is loaded. *)
Definition initial_state : State :=
  {| ser_is_open := false;
     running := false;
     start_time := None;
     latest_quaternion := [identity_quaternion];
     x_positions := [];
     y_positions := [];
     z_positions := [];
     engine_states := replicate 3 false;
     raw_serial_lines := [];
     last_toggle_time := None |}.

Definition set_ser_is_open (v : bool) (st : State) : State :=
  mkState v (running st) (start_time st) (latest_quaternion st) (x_positions st)
    (y_positions st) (z_positions st) (engine_states st)
    (raw_serial_lines st) (last_toggle_time st).

Definition set_running (v : bool) (st : State) : State :=
  mkState (ser_is_open st) v (start_time st) (latest_quaternion st) (x_positions st)
    (y_positions st) (z_positions st) (engine_states st)
    (raw_serial_lines st) (last_toggle_time st).

Definition set_start_time (v : option float) (st : State) : State :=
  mkState (ser_is_open st) (running st) v (latest_quaternion st) (x_positions st)
    (y_positions st) (z_positions st) (engine_states st)
    (raw_serial_lines st) (last_toggle_time st).

Definition set_latest_quaternion (v : list quaternion) (st : State) : State :=
  mkState (ser_is_open st) (running st) (start_time st) v (x_positions st)
    (y_positions st) (z_positions st) (engine_states st)
    (raw_serial_lines st) (last_toggle_time st).

Definition set_x_positions (v : list float) (st : State) : State :=
  mkState (ser_is_open st) (running st) (start_time st) (latest_quaternion st) v
    (y_positions st) (z_positions st) (engine_states st)
    (raw_serial_lines st) (last_toggle_time st).

Definition set_y_positions (v : list float) (st : State) : State :=
  mkState (ser_is_open st) (running st) (start_time st) (latest_quaternion st) (x_positions st)
    v (z_positions st) (engine_states st)
    (raw_serial_lines st) (last_toggle_time st).

Definition set_z_positions (v : list float) (st : State) : State :=
  mkState (ser_is_open st) (running st) (start_time st) (latest_quaternion st) (x_positions st)
    (y_positions st) v (engine_states st)
    (raw_serial_lines st) (last_toggle_time st).

Definition set_engine_states (v : list bool) (st : State) : State :=
  mkState (ser_is_open st) (running st) (start_time st) (latest_quaternion st) (x_positions st)
    (y_positions st) (z_positions st) v
    (raw_serial_lines st) (last_toggle_time st).

Definition set_raw_serial_lines (v : list string) (st : State) : State :=
  mkState (ser_is_open st) (running st) (start_time st) (latest_quaternion st) (x_positions st)
    (y_positions st) (z_positions st) (engine_states st)
    v (last_toggle_time st).

Definition set_last_toggle_time (v : option float) (st : State) : State :=
  mkState (ser_is_open st) (running st) (start_time st) (latest_quaternion st) (x_positions st)
    (y_positions st) (z_positions st) (engine_states st)
    (raw_serial_lines st) v.

(** ** Statements that mutate the state and may raise *)

(** A statement takes the state and gives back the state it leaves
    together with its value or the exception it raised: what was stored
    before an exception stays stored. *)
Definition M (A : Type) : Type := State -> result A * State.

Definition ret {A : Type} (a : A) : M A := fun st => (Ok a, st).

Definition bind {A B : Type} (m : M A) (k : A -> M B) : M B :=
  fun st =>
    match m st with
    | (Ok a, st') => k a st'
    | (Raise e, st') => (Raise e, st')
    end.

Definition raise {A : Type} (e : exn) : M A := fun st => (Raise e, st).

Definition get : M State := fun st => (Ok st, st).

Definition modify (f : State -> State) : M unit := fun st => (Ok tt, f st).

Definition lift {A : Type} (r : result A) : M A := fun st => (r, st).

Notation "'let*' x ':=' c 'in' k" := (bind c (fun x => k))
  (at level 10, x name, c at level 100, k at level 200).

(** ** One iteration of the [read_serial] loop *)

(** The start of the [read_serial] thread: the start time is taken when
    it is still [None].  Test and store are two statements; here, where
    [read_serial] is followed on its own, they are one step, and
    [loop_step] below takes them one at a time. *)
Definition thread_start (now : float) (st : State) : State :=
  match start_time st with
  | None => set_start_time (Some now) st
  | Some _ => st
  end.

(** The values [time.time()] returns to the calls an iteration makes, in
    program order: the two calls of the guard on the elapsed time, the
    call compared with the last toggle, and the call stored as the new
    last toggle.  A call that is not reached leaves its reading unused. *)
Record Clock : Type := mkClock {
  t_guard_mod : float;
  t_guard_nonzero : float;
  t_since_toggle : float;
  t_stamp : float
}.

(** [l[i]] on a list *)
Definition index {A : Type} (l : list A) (i : nat) : M A :=
  match l !! i with
  | Some a => ret a
  | None => raise IndexError
  end.

(** [int(now - start_time)]; the subtraction raises [TypeError] when
    [start_time] is [None]. *)
Definition elapsed_seconds (now : float) : M Z :=
  let* st := get in
  match start_time st with
  | None => raise TypeError
  | Some t0 => lift (py_int (PrimFloat.sub now t0))
  end.

(** The engine-state placeholder at the end of the [try] block. *)
Definition toggle_engine (clk : Clock) : M unit :=
  let* e1 := elapsed_seconds (t_guard_mod clk) in
  let* guard :=
    (if (e1 mod 5 =? 0)
     then let* e2 := elapsed_seconds (t_guard_nonzero clk) in
          ret (negb (e2 =? 0))
     else ret false) in
  if guard : bool then
    let* st := get in
    let* _ := (match last_toggle_time st with
               | None => modify (set_last_toggle_time (Some 0%float))
               | Some _ => ret tt
               end) in
    let* st := get in
    let last := default 0%float (last_toggle_time st) in
    if PrimFloat.ltb 5%float (PrimFloat.sub (t_since_toggle clk) last) then
      let* e0 := index (engine_states st) 0 in
      let* _ := modify (set_engine_states (<[0%nat := negb e0]> (engine_states st))) in
      modify (set_last_toggle_time (Some (t_stamp clk)))
    else ret tt
  else ret tt.

Section ReadSerial.

(** [line.decode("utf-8", errors="ignore").strip()] *)
Variable decode_strip : list Byte.byte -> string.

(** The builtin [float(s)]; [None] stands for its [ValueError]. *)
Variable float_of : string -> option float.

Definition py_float (s : string) : M float :=
  match float_of s with
  | Some v => ret v
  | None => raise ValueError
  end.

(** [float(data_str[i])] *)
Definition float_at (data_str : list string) (i : nat) : M float :=
  let* s := index data_str i in py_float s.

(** The statements of the [try] block once [data_str] is known. *)
Definition parse_fields (data_str : list string) (clk : Clock) : M unit :=
  let* qW := float_at data_str 0 in
  let* qX := float_at data_str 1 in
  let* qY := float_at data_str 2 in
  let* qZ := float_at data_str 3 in
  let* _ := modify (fun st =>
    set_latest_quaternion (deque_append 1 [qX; qY; qZ; qW] (latest_quaternion st)) st) in
  let* x_pos := float_at data_str 4 in
  let* y_pos := float_at data_str 5 in
  let* z_pos := float_at data_str 6 in
  let* _ := modify (fun st => set_x_positions (deque_append 500 x_pos (x_positions st)) st) in
  let* _ := modify (fun st => set_y_positions (deque_append 500 y_pos (y_positions st)) st) in
  let* _ := modify (fun st => set_z_positions (deque_append 500 z_pos (z_positions st)) st) in
  toggle_engine clk.

(** The body of the [try] of a line that starts with [DATA:]. *)
Definition parse_data (decoded_line : string) (clk : Clock) : M unit :=
  let parts := py_split colon decoded_line in
  let* payload := index parts 1 in
  let data_str := py_split comma payload in
  parse_fields data_str clk.

(** What happens to a decoded line: it is stored as a raw line, and a
    line that starts with [DATA:] goes through [parse_data].  Both
    [except] clauses only print, so whichever exception ends the [try]
    the iteration goes on with the state as it then is. *)
Definition process_line (decoded_line : string) (clk : Clock) (st : State) : State :=
  let st1 := set_raw_serial_lines
               (deque_append 200 decoded_line (raw_serial_lines st)) st in
  if startswith decoded_line "DATA:" then snd (parse_data decoded_line clk st1)
  else st1.

(** One turn of [while running:] on the bytes [ser.readline()] returned;
    an empty read (timeout) is skipped. *)
Definition read_iteration (line : list Byte.byte) (clk : Clock) (st : State) : State :=
  match line with
  | [] => st
  | _ => process_line (decode_strip line) clk st
  end.

(** The loop on the successive reads, while [running] holds. *)
Definition read_loop (reads : list (list Byte.byte * Clock)) (st : State) : State :=
  foldl (fun s r => if running s then read_iteration (fst r) (snd r) s else s) st reads.

(** [read_serial]: the thread start, then the loop. *)
Definition read_serial (now : float) (reads : list (list Byte.byte * Clock))
    (st : State) : State :=
  read_loop reads (thread_start now st).

End ReadSerial.

(** ** The position plot of [update_plot] and [disconnect_serial] *)

(** The limits of [ax_position], as given by the last calls of
    [set_xlim], [set_ylim] and [set_zlim] that returned. *)
Record Axes : Type := mkAxes {
  xlim : float * float;
  ylim : float * float;
  zlim : float * float
}.

Definition default_lim : float * float := ((-10)%float, 10%float).

(** The limits set when the figure is built and on disconnect. *)
Definition default_axes : Axes := mkAxes default_lim default_lim default_lim.

Definition buffer : float := 1%float.

(** Truth value of a deque: non-empty. *)
Definition nonempty {A : Type} (d : list A) : bool :=
  match d with [] => false | _ => true end.

(** The "Update Position Plot" block of [update_plot] when the read
    loop stores nothing between its reads and every call into the
    plotting library returns.  The six extrema are computed before the
    first limit is set; the [except] clause only prints, so an exception
    there leaves the limits as they were.  [update_position_plot_at]
    below gives each read its own state. *)
Definition update_position_plot (st : State) (ax : Axes) : Axes :=
  if nonempty (x_positions st) && nonempty (y_positions st) && nonempty (z_positions st) then
    if decide (1 < length (x_positions st))%nat then
      match py_min (x_positions st), py_max (x_positions st),
            py_min (y_positions st), py_max (y_positions st),
            py_min (z_positions st), py_max (z_positions st) with
      | Some min_x, Some max_x, Some min_y, Some max_y, Some min_z, Some max_z =>
          mkAxes (PrimFloat.sub min_x buffer, PrimFloat.add max_x buffer)
                 (PrimFloat.sub min_y buffer, PrimFloat.add max_y buffer)
                 (PrimFloat.sub min_z buffer, PrimFloat.add max_z buffer)
      | _, _, _, _, _, _ => ax
      end
    else default_axes
  else ax.

(** [for i in range(len(engine_states)): engine_states[i] = False] *)
Definition clear_engines (es : list bool) : list bool :=
  foldl (fun acc i => <[i := false]> acc) es (seq 0 (length es)).

(** [disconnect_serial], on the buffers and the plot limits. *)
Definition disconnect_serial (st : State) (ax : Axes) : State * Axes :=
  let st1 := if ser_is_open st
             then set_ser_is_open false (set_running false st)
             else st in
  let st2 := set_start_time None st1 in
  let st3 := set_latest_quaternion
               (deque_append 1 identity_quaternion []) st2 in
  let st4 := set_z_positions [] (set_y_positions [] (set_x_positions [] st3)) in
  let st5 := set_engine_states (clear_engines (engine_states st4)) st4 in
  let st6 := set_raw_serial_lines [] st5 in
  (st6, default_axes).

(** [connect_serial]: nothing happens without a selected port or when
    the port cannot be opened; otherwise the port is open, [running] is
    set and the start time is taken. *)
Definition connect_serial (port : string) (opens : bool) (now : float)
    (st : State) : State :=
  match port with
  | EmptyString => st
  | _ => if opens
         then set_start_time (Some now) (set_running true (set_ser_is_open true st))
         else st
  end.

(** ** A reader of plain decimals *)

(** The wire format writes its fields as plain decimals: an optional
    sign, digits, and optionally a point and more digits.  On such a
    text with at most 15 digits the value of [float()] is the quotient
    of the digits read as an integer by the matching power of ten, both
    exact in binary64, so one correctly rounded division gives it.  This
    reader is used to run the model on concrete lines; it declines longer
    texts and the other spellings [float()] takes. *)
Definition digit_of (c : ascii) : option Z :=
  let n := Z.of_nat (nat_of_ascii c) in
  if (48 <=? n) && (n <=? 57) then Some (n - 48) else None.

(** Reads the leading digits of [s] after the digits already read
    ([acc], [cnt] of them); gives the number, the count and the rest. *)
Fixpoint read_digits (s : string) (acc : Z) (cnt : nat) : Z * nat * string :=
  match s with
  | EmptyString => (acc, cnt, s)
  | String c r =>
      match digit_of c with
      | Some d => read_digits r (10 * acc + d) (S cnt)
      | None => (acc, cnt, s)
      end
  end.

Definition float_of_Z (n : Z) : float := PrimFloat.of_uint63 (Uint63.of_Z n).

Definition decimal_unsigned (s : string) : option float :=
  let '(ip, n1, r1) := read_digits s 0 0 in
  let '(m, n, r2) :=
    match r1 with
    | String "." r => read_digits r ip n1
    | _ => (ip, n1, r1)
    end in
  let k := (n - n1)%nat in
  match r2 with
  | EmptyString =>
      if decide (1 <= n <= 15)%nat
      then Some (PrimFloat.div (float_of_Z m) (float_of_Z (10 ^ Z.of_nat k)))
      else None
  | _ => None
  end.

Definition decimal_float (s : string) : option float :=
  match s with
  | String "-" r => PrimFloat.opp <$> decimal_unsigned r
  | String "+" r => decimal_unsigned r
  | _ => decimal_unsigned s
  end.

(** ASCII text decoding of a raw line (no stripping needed on the lines
    it is used on). *)
Definition ascii_decode (line : list Byte.byte) : string :=
  string_of_list_byte line.

Definition clock_at (t : float) : Clock := mkClock t t t t.

(** The session used in the concrete runs: connected at clock time 1000,
    nothing received yet. *)
Definition fresh_session : State :=
  set_start_time (Some 1000%float)
    (set_running true (set_ser_is_open true initial_state)).

(** ** Frames and well-formed wire lines *)

(** The seven numbers of one wire line, in wire order. *)
Record Frame : Type := mkFrame {
  qW : float; qX : float; qY : float; qZ : float;
  x_pos : float; y_pos : float; z_pos : float
}.

(** The line [DATA:f0,f1,...] made of the given field texts. *)
Definition wire_line (fields : list string) : string :=
  ("DATA:" ++ join comma fields)%string.

Definition no_separator (f : string) : Prop :=
  has_char colon f = false /\ has_char comma f = false.

Definition frame_values (fr : Frame) : list float :=
  [qW fr; qX fr; qY fr; qZ fr; x_pos fr; y_pos fr; z_pos fr].

(** The first seven field texts are read by [float_of] as the numbers of
    [fr]. *)
Definition reads_as (float_of : string -> option float)
    (fields : list string) (fr : Frame) : Prop :=
  Forall2 (fun t v => float_of t = Some v) (take 7 fields) (frame_values fr).

(** [line] is [DATA:qw,qx,qy,qz,x,y,z]: seven texts free of separators
    that [float_of] reads as the numbers of [fr]. *)
Definition well_formed (float_of : string -> option float)
    (line : string) (fr : Frame) : Prop :=
  exists fields,
    line = wire_line fields /\ length fields = 7%nat /\
    Forall no_separator fields /\ reads_as float_of fields fr.

(** The stores a frame causes: the quaternion in internal order
    (x, y, z, w), then the three coordinates. *)
Definition apply_frame (fr : Frame) (st : State) : State :=
  let st1 := set_latest_quaternion
               (deque_append 1 [qX fr; qY fr; qZ fr; qW fr] (latest_quaternion st)) st in
  let st2 := set_x_positions (deque_append 500 (x_pos fr) (x_positions st1)) st1 in
  let st3 := set_y_positions (deque_append 500 (y_pos fr) (y_positions st2)) st2 in
  set_z_positions (deque_append 500 (z_pos fr) (z_positions st3)) st3.

Definition record_raw_line (text : string) (st : State) : State :=
  set_raw_serial_lines (deque_append 200 text (raw_serial_lines st)) st.

(** What the consumer reads: [latest_quaternion[0]] and the three
    coordinate deques side by side. *)
Definition latest_attitude (st : State) : option quaternion :=
  latest_quaternion st !! 0%nat.

Definition position_trail (st : State) : list (float * float * float) :=
  zip (zip (x_positions st) (y_positions st)) (z_positions st).

(** The bounds every deque keeps, and the three flags. *)
Record wf_state (st : State) : Prop := mkWf {
  wf_quaternion : (length (latest_quaternion st) <= 1)%nat;
  wf_x : (length (x_positions st) <= 500)%nat;
  wf_y : length (y_positions st) = length (x_positions st);
  wf_z : length (z_positions st) = length (x_positions st);
  wf_raw : (length (raw_serial_lines st) <= 200)%nat;
  wf_engines : length (engine_states st) = 3%nat
}.

Definition frame_position (fr : Frame) : float * float * float :=
  (x_pos fr, y_pos fr, z_pos fr).

(** The decoded lines of a run, each with the clock values of its
    iteration, processed in order. *)
Definition feed (float_of : string -> option float)
    (inputs : list (string * Clock)) (st : State) : State :=
  foldl (fun s i => process_line float_of i.1 i.2 s) st inputs.

(** ** What the statements below speak of *)

(** The field texts [parse_data] works on: the comma cut of what stands
    between the first and the second colon. *)
Definition line_fields (decoded_line : string) : option (list string) :=
  py_split comma <$> (py_split colon decoded_line !! 1%nat).

(** The decoding of a line none of whose stores depends on the raw-line
    buffer: the state it leaves on [st], before the raw line is recorded. *)
Definition decode_into (float_of : string -> option float)
    (decoded_line : string) (clk : Clock) (st : State) : State :=
  if startswith decoded_line "DATA:" then
    match line_fields decoded_line with
    | Some fields => snd (parse_fields float_of fields clk st)
    | None => st
    end
  else st.

(** The quaternion read from the first four fields, in internal order,
    when all four are there and parse. *)
Definition read_quaternion (float_of : string -> option float)
    (fields : list string) : option quaternion :=
  qW ← fields !! 0%nat ≫= float_of;
  qX ← fields !! 1%nat ≫= float_of;
  qY ← fields !! 2%nat ≫= float_of;
  qZ ← fields !! 3%nat ≫= float_of;
  Some [qX; qY; qZ; qW].

(** The position read from fields 4 to 6. *)
Definition read_position (float_of : string -> option float)
    (fields : list string) : option (float * float * float) :=
  x ← fields !! 4%nat ≫= float_of;
  y ← fields !! 5%nat ≫= float_of;
  z ← fields !! 6%nat ≫= float_of;
  Some (x, y, z).

Definition store_quaternion (q : quaternion) (st : State) : State :=
  set_latest_quaternion (deque_append 1 q (latest_quaternion st)) st.

Definition store_position (p : float * float * float) (st : State) : State :=
  let st1 := set_x_positions (deque_append 500 p.1.1 (x_positions st)) st in
  let st2 := set_y_positions (deque_append 500 p.1.2 (y_positions st1)) st1 in
  set_z_positions (deque_append 500 p.2 (z_positions st2)) st2.

(** Two states that differ at most in the engine flags and the last
    toggle time. *)
Definition same_buffers (st st' : State) : Prop :=
  ser_is_open st' = ser_is_open st /\ running st' = running st /\
  start_time st' = start_time st /\
  latest_quaternion st' = latest_quaternion st /\
  x_positions st' = x_positions st /\ y_positions st' = y_positions st /\
  z_positions st' = z_positions st /\
  raw_serial_lines st' = raw_serial_lines st.

(** The conditions under which [toggle_engine] flips flag 0, read off the
    clock values of the iteration. *)
Definition toggle_conditions (clk : Clock) (st : State) : Prop :=
  exists t0 e1 e2,
    start_time st = Some t0 /\
    py_int (PrimFloat.sub (t_guard_mod clk) t0) = Ok e1 /\ e1 mod 5 = 0 /\
    py_int (PrimFloat.sub (t_guard_nonzero clk) t0) = Ok e2 /\ e2 <> 0 /\
    PrimFloat.ltb 5%float
      (PrimFloat.sub (t_since_toggle clk) (default 0%float (last_toggle_time st))) = true.

(** The extrema of a deque widened by the margin on both sides. *)
Definition margin_limits (d : list float) : option (float * float) :=
  lo ← py_min d; hi ← py_max d;
  Some (PrimFloat.sub lo buffer, PrimFloat.add hi buffer).

(** ** The two threads on the position deques *)

(** The read loop and the render tick run in two threads without a lock.
    Under the interpreter lock a call of a deque method runs to its end,
    and the other thread may run between any two calls.  The statements
    that matter for the trail are the three appends of an iteration and,
    in a tick, the three emptiness tests followed by the three copies
    [list(x_positions)], [list(y_positions)], [list(z_positions)]. *)
Inductive thread : Type := Writer | Reader.

Inductive append_stmt : Type :=
  | AppendX (v : float)
  | AppendY (v : float)
  | AppendZ (v : float).

Definition frame_appends (fr : Frame) : list append_stmt :=
  [AppendX (x_pos fr); AppendY (y_pos fr); AppendZ (z_pos fr)].

Definition exec_append (s : append_stmt) (st : State) : State :=
  match s with
  | AppendX v => set_x_positions (deque_append 500 v (x_positions st)) st
  | AppendY v => set_y_positions (deque_append 500 v (y_positions st)) st
  | AppendZ v => set_z_positions (deque_append 500 v (z_positions st)) st
  end.

(** Where the render tick stands. *)
Inductive tick_pc : Type := TestX | TestY | TestZ | CopyX | CopyY | CopyZ.

(** The three lists a tick hands to the plot. *)
Record Snapshot : Type := mkSnapshot {
  snap_x : list float;
  snap_y : list float;
  snap_z : list float
}.

Record Conc : Type := mkConc {
  store : State;
  pending : list append_stmt;    (* the appends the read loop has still to do *)
  pc : tick_pc;
  copy_x : list float;           (* list(x_positions), once taken *)
  copy_y : list float;
  observed : list Snapshot       (* what the ticks have handed over so far *)
}.

Definition writer_step (c : Conc) : Conc :=
  match pending c with
  | [] => c
  | s :: rest =>
      mkConc (exec_append s (store c)) rest (pc c) (copy_x c) (copy_y c) (observed c)
  end.

Definition goto (p : tick_pc) (c : Conc) : Conc :=
  mkConc (store c) (pending c) p (copy_x c) (copy_y c) (observed c).

Definition reader_step (c : Conc) : Conc :=
  match pc c with
  | TestX => if nonempty (x_positions (store c)) then goto TestY c else goto TestX c
  | TestY => if nonempty (y_positions (store c)) then goto TestZ c else goto TestX c
  | TestZ => if nonempty (z_positions (store c)) then goto CopyX c else goto TestX c
  | CopyX => mkConc (store c) (pending c) CopyY
               (x_positions (store c)) (copy_y c) (observed c)
  | CopyY => mkConc (store c) (pending c) CopyZ
               (copy_x c) (y_positions (store c)) (observed c)
  | CopyZ => mkConc (store c) (pending c) TestX (copy_x c) (copy_y c)
               (observed c ++ [mkSnapshot (copy_x c) (copy_y c)
                                 (z_positions (store c))])%list
  end.

Definition conc_step (c : Conc) (t : thread) : Conc :=
  match t with
  | Writer => writer_step c
  | Reader => reader_step c
  end.

(** A schedule says which thread runs its next statement. *)
Definition run_schedule (sched : list thread) (c : Conc) : Conc :=
  foldl conc_step c sched.

Definition start_conc (frames : list Frame) (st : State) : Conc :=
  mkConc st (frames ≫= frame_appends) TestX [] [] [].

Definition xs_of (p : list append_stmt) : list float :=
  omap (fun s => match s with AppendX v => Some v | _ => None end) p.
Definition ys_of (p : list append_stmt) : list float :=
  omap (fun s => match s with AppendY v => Some v | _ => None end) p.
Definition zs_of (p : list append_stmt) : list float :=
  omap (fun s => match s with AppendZ v => Some v | _ => None end) p.

(** [l] is what a deque of capacity 500 holds after some first [n] of
    the values [vals] were appended to it: a run of consecutive values,
    in insertion order, of length at most 500. *)
Definition window (vals l : list float) : Prop :=
  exists n, (n <= length vals)%nat /\ l = drop (n - 500) (take n vals).

(** What holds of the two threads at every point of every schedule. *)
Inductive conc_inv (program : list append_stmt) (c : Conc) : Prop :=
  | mkConcInv (done_ : list append_stmt)
      (inv_program : program = (done_ ++ pending c)%list)
      (inv_x : x_positions (store c) = deque_extend 500 [] (xs_of done_))
      (inv_y : y_positions (store c) = deque_extend 500 [] (ys_of done_))
      (inv_z : z_positions (store c) = deque_extend 500 [] (zs_of done_))
      (inv_copy_x : window (xs_of program) (copy_x c))
      (inv_copy_y : window (ys_of program) (copy_y c))
      (inv_observed :
         Forall (fun s => window (xs_of program) (snap_x s) /\
                          window (ys_of program) (snap_y s) /\
                          window (zs_of program) (snap_z s)) (observed c)).

(** * A session, statement by statement

    The read loop runs in a thread of its own; the handlers of the
    buttons and the render tick run in the main thread, one after the
    other.  No lock is taken anywhere.  Under the interpreter lock a
    call of a deque method, and a builtin such as [len], [min], [max] or
    [list] on a deque of floats, runs to its end, and the other thread
    may run between any two of them.  The loop and the tick are taken
    apart accordingly.  Calls into Tk are taken to return. *)

(** ** The read loop, statement by statement *)

(** The statements of one iteration that touch the shared state, with
    the values they work on.  The texts are parsed by the thread alone,
    so a statement carries what the parsing before it gave. *)
Inductive loop_stmt : Type :=
  | RawAppend (text : string)            (* line 565 *)
  | QuaternionAppend (q : quaternion)    (* line 581 *)
  | XAppend (v : float)                  (* line 588 *)
  | YAppend (v : float)                  (* line 589 *)
  | ZAppend (v : float)                  (* line 590 *)
  | GuardMod (now : float)               (* line 596, left operand *)
  | GuardNonzero (now : float)           (* line 596, right operand *)
  | InitToggleTime                       (* lines 597-598 *)
  | Spacing (now : float)                (* line 599 *)
  | Flip                                 (* line 600 *)
  | Stamp (now : float).                 (* line 601 *)

(** One statement on the state as it then is.  The flag tells whether
    the iteration goes on: a test that fails skips what is left, and an
    exception leaves the [try] for an [except] that only prints. *)
Definition exec_stmt (s : loop_stmt) (st : State) : State * bool :=
  match s with
  | RawAppend text => (record_raw_line text st, true)
  | QuaternionAppend q => (store_quaternion q st, true)
  | XAppend v => (set_x_positions (deque_append 500 v (x_positions st)) st, true)
  | YAppend v => (set_y_positions (deque_append 500 v (y_positions st)) st, true)
  | ZAppend v => (set_z_positions (deque_append 500 v (z_positions st)) st, true)
  | GuardMod now =>
      match fst (elapsed_seconds now st) with
      | Ok e => (st, e mod 5 =? 0)
      | Raise _ => (st, false)
      end
  | GuardNonzero now =>
      match fst (elapsed_seconds now st) with
      | Ok e => (st, negb (e =? 0))
      | Raise _ => (st, false)
      end
  | InitToggleTime =>
      (match last_toggle_time st with
       | None => set_last_toggle_time (Some 0%float) st
       | Some _ => st
       end, true)
  | Spacing now =>
      (st, PrimFloat.ltb 5%float
             (PrimFloat.sub now (default 0%float (last_toggle_time st))))
  | Flip =>
      match engine_states st !! 0%nat with
      | Some e0 => (set_engine_states (<[0%nat := negb e0]> (engine_states st)) st, true)
      | None => (st, false)
      end
  | Stamp now => (set_last_toggle_time (Some now) st, true)
  end.

(** The statements in a row, no other thread in between. *)
Fixpoint run_stmts (todo : list loop_stmt) (st : State) : State :=
  match todo with
  | [] => st
  | s :: rest =>
      let '(st', go) := exec_stmt s st in
      if go then run_stmts rest st' else st'
  end.

(** The engine placeholder of lines 596-601. *)
Definition placeholder_stmts (clk : Clock) : list loop_stmt :=
  [GuardMod (t_guard_mod clk); GuardNonzero (t_guard_nonzero clk);
   InitToggleTime; Spacing (t_since_toggle clk); Flip; Stamp (t_stamp clk)].

(** The statements of the inner [try] on the fields [data_str]: a
    field that is missing or does not parse ends them. *)
Definition fields_stmts (float_of : string -> option float)
    (data_str : list string) (clk : Clock) : list loop_stmt :=
  match read_quaternion float_of data_str with
  | None => []
  | Some q =>
      QuaternionAppend q ::
      match read_position float_of data_str with
      | None => []
      | Some p => [XAppend p.1.1; YAppend p.1.2; ZAppend p.2] ++ placeholder_stmts clk
      end
  end.

(** The statements a decoded line causes. *)
Definition line_stmts (float_of : string -> option float)
    (decoded_line : string) (clk : Clock) : list loop_stmt :=
  RawAppend decoded_line ::
  (if startswith decoded_line "DATA:" then
     match line_fields decoded_line with
     | Some data_str => fields_stmts float_of data_str clk
     | None => []
     end
   else []).

(** The statements of the iteration that got [line] from [readline]. *)
Definition iteration_stmts (decode_strip : list Byte.byte -> string)
    (float_of : string -> option float)
    (line : list Byte.byte) (clk : Clock) : list loop_stmt :=
  match line with
  | [] => []
  | _ => line_stmts float_of (decode_strip line) clk
  end.

(** ** The render tick, read by read *)

(** The reads a tick makes of the coordinate deques, in program order. *)
Inductive tick_read : Type :=
  | SeeX | SeeY | SeeZ        (* line 664 *)
  | ListX | ListY             (* line 666 *)
  | ListZ                     (* line 667 *)
  | LenX                      (* line 670 *)
  | MinX | MaxX               (* line 671 *)
  | MinY | MaxY               (* line 672 *)
  | MinZ | MaxZ.              (* line 673 *)

Definition tick_reads : list tick_read :=
  [SeeX; SeeY; SeeZ; ListX; ListY; ListZ; LenX; MinX; MaxX; MinY; MaxY; MinZ; MaxZ].

Definition read_number (r : tick_read) : nat :=
  match r with
  | SeeX => 0 | SeeY => 1 | SeeZ => 2 | ListX => 3 | ListY => 4 | ListZ => 5
  | LenX => 6 | MinX => 7 | MaxX => 8 | MinY => 9 | MaxY => 10 | MinZ => 11
  | MaxZ => 12
  end.

(** The reads up to [r], [r] included. *)
Definition reads_until (r : tick_read) : list tick_read :=
  take (S (read_number r)) tick_reads.

(** The calls into the plotting library whose arguments come from the
    data. *)
Inductive plot_call : Type :=
  | SetData (xs ys : list float)              (* line 666 *)
  | Set3dProperties (xs ys zs : list float)   (* line 667, on the data of line 666 *)
  | SetXlim (lim : float * float)             (* line 676 *)
  | SetYlim (lim : float * float)             (* line 677 *)
  | SetZlim (lim : float * float).            (* line 678 *)

(** The limits [lo - buffer, hi + buffer] from the minimum of one
    reading of a deque and the maximum of another. *)
Definition margin_between (d_min d_max : list float) : option (float * float) :=
  lo ← py_min d_min; hi ← py_max d_max;
  Some (PrimFloat.sub lo buffer, PrimFloat.add hi buffer).

(** The "Update Position Plot" block when each read finds the state
    [sees r] and a call into the library returns or raises as [returns]
    says.  An exception ends the block with the limits set so far.  The
    default limits are the ones the figure is built with; these calls
    are taken to return. *)
Definition update_position_plot_at (returns : plot_call -> bool)
    (sees : tick_read -> State) (ax : Axes) : Axes :=
  if nonempty (x_positions (sees SeeX)) && nonempty (y_positions (sees SeeY))
     && nonempty (z_positions (sees SeeZ)) then
    let xs := x_positions (sees ListX) in
    let ys := y_positions (sees ListY) in
    if returns (SetData xs ys) then
      let zs := z_positions (sees ListZ) in
      if returns (Set3dProperties xs ys zs) then
        if decide (1 < length (x_positions (sees LenX)))%nat then
          match margin_between (x_positions (sees MinX)) (x_positions (sees MaxX)),
                margin_between (y_positions (sees MinY)) (y_positions (sees MaxY)),
                margin_between (z_positions (sees MinZ)) (z_positions (sees MaxZ)) with
          | Some lx, Some ly, Some lz =>
              if returns (SetXlim lx) then
                if returns (SetYlim ly) then
                  if returns (SetZlim lz) then mkAxes lx ly lz
                  else mkAxes lx ly (zlim ax)
                else mkAxes lx (ylim ax) (zlim ax)
              else ax
          | _, _, _ => ax
          end
        else default_axes
      else ax
    else ax
  else ax.


(** ** The two threads *)

(** Where the main thread stands: between two handlers, inside
    [connect_serial] after the thread was started (lines 743-750),
    inside [disconnect_serial] between line 761 and line 762, or in the
    dialog of line 764, which runs the event loop until it is closed. *)
Inductive main_at : Type := Idle | Connecting | Stopping | Dialog.

(** Where the thread of [read_serial] stands: not started or ended, at
    the test of line 557, at the store of line 558, or in the loop with
    the statements its iteration has still to do. *)
Inductive loop_at : Type :=
  | NoThread
  | AtStartTest
  | AtStartStore
  | InLoop (todo : list loop_stmt).

Definition todo_of (l : loop_at) : list loop_stmt :=
  match l with InLoop todo => todo | _ => [] end.

Record Config : Type := mkConfig {
  shared : State;
  limits : Axes;
  main_thread : main_at;
  read_thread : loop_at
}.

Definition initial_config : Config :=
  mkConfig initial_state default_axes Idle NoThread.

(** A step of the read thread, with what it takes from outside. *)
Inductive loop_event : Type :=
  | Statement                  (* the statement the thread stands at *)
  | TimeReading (now : float)  (* line 558, with the value of [time.time()] *)
  | Readline (line : list Byte.byte) (clk : Clock).
      (* lines 559-561: [running] holds and [readline] returns [line];
         [clk] are the clock values the iteration will read *)

Section Sessions.

Variable decode_strip : list Byte.byte -> string.
Variable float_of : string -> option float.
Variable returns : plot_call -> bool.

Definition loop_step (sl : State * loop_at) (e : loop_event) : State * loop_at :=
  let '(st, l) := sl in
  match l, e with
  | AtStartTest, Statement =>
      (st, match start_time st with None => AtStartStore | Some _ => InLoop [] end)
  | AtStartStore, TimeReading now => (set_start_time (Some now) st, InLoop [])
  | InLoop [], Readline line clk =>
      if running st then (st, InLoop (iteration_stmts decode_strip float_of line clk))
      else sl
  | InLoop [], Statement => if running st then sl else (st, NoThread)
  | InLoop (s :: rest), Statement =>
      let '(st', go) := exec_stmt s st in
      (st', InLoop (if go then rest else []))
  | _, _ => sl
  end.

Definition loop_run (es : list loop_event) (sl : State * loop_at) : State * loop_at :=
  foldl loop_step sl es.

(** The state and the thread when the tick makes the read [r], the loop
    having taken the steps [between r'] before each read [r'] up to it. *)
Definition tick_at (between : tick_read -> list loop_event)
    (sl : State * loop_at) (r : tick_read) : State * loop_at :=
  loop_run (reads_until r ≫= between) sl.

(** What happens next: a step of the read thread, a step of a handler
    of the main thread, or a render tick with the steps the read thread
    takes during it. *)
Inductive event : Type :=
  | Loop (e : loop_event)
  | ConnectOpens (port : string) (opens : bool)  (* lines 732-742 *)
  | ConnectStamps (now : float)                  (* line 750 *)
  | StopLoop                                     (* line 761 *)
  | ClosePort                                    (* lines 762-764 *)
  | ResetDisplays                                (* lines 766-805 *)
  | RenderTick (between : tick_read -> list loop_event).

Definition thread_idle (l : loop_at) : bool :=
  match l with NoThread | InLoop [] => true | _ => false end.

(** An event that cannot happen where the threads stand changes
    nothing.  The buttons allow [connect_serial] only while the port is
    closed (lines 744, 767), and the dialog of line 764 stands between
    stopping and the resets, long enough for the loop, whose reads time
    out after 0.1 s, to end the iteration it was in and to leave. *)
Definition exec_event (e : event) (c : Config) : Config :=
  match e with
  | Loop e =>
      let sl := loop_step (shared c, read_thread c) e in
      mkConfig sl.1 (limits c) (main_thread c) sl.2
  | ConnectOpens port opens =>
      match main_thread c, port with
      | Idle, String _ _ =>
          if opens && negb (ser_is_open (shared c)) then
            mkConfig (set_running true (set_ser_is_open true (shared c)))
              (limits c) Connecting AtStartTest
          else c
      | _, _ => c
      end
  | ConnectStamps now =>
      match main_thread c with
      | Connecting =>
          mkConfig (set_start_time (Some now) (shared c)) (limits c) Idle (read_thread c)
      | _ => c
      end
  | StopLoop =>
      match main_thread c with
      | Idle =>
          if ser_is_open (shared c)
          then mkConfig (set_running false (shared c)) (limits c) Stopping (read_thread c)
          else c
      | _ => c
      end
  | ClosePort =>
      match main_thread c with
      | Stopping =>
          mkConfig (set_ser_is_open false (shared c)) (limits c) Dialog (read_thread c)
      | _ => c
      end
  | ResetDisplays =>
      if thread_idle (read_thread c) && negb (ser_is_open (shared c)) then
        match main_thread c with
        | Idle | Dialog =>
            let sa := disconnect_serial (shared c) (limits c) in
            mkConfig sa.1 sa.2 Idle NoThread
        | _ => c
        end
      else c
  | RenderTick between =>
      match main_thread c with
      | Idle | Dialog =>
          let sees r := (tick_at between (shared c, read_thread c) r).1 in
          let sl := tick_at between (shared c, read_thread c) MaxZ in
          mkConfig sl.1 (update_position_plot_at returns sees (limits c))
            (main_thread c) sl.2
      | _ => c
      end
  end.

Definition run (events : list event) (c : Config) : Config :=
  foldl (fun c e => exec_event e c) c events.

(** The configurations the program can be in. *)
Definition reachable (c : Config) : Prop :=
  exists events, c = run events initial_config.


End Sessions.

(** The coordinate appends an iteration has still to do. *)
Definition is_coordinate (s : loop_stmt) : bool :=
  match s with XAppend _ | YAppend _ | ZAppend _ => true | _ => false end.

Definition coordinates_owed (l : loop_at) : nat :=
  length (filter (fun s => is_coordinate s = true) (todo_of l)).

(** ** What holds at every point of every run *)

(** What a thread in the loop has still to do is the rest of the
    statements of some line. *)
Definition staged (float_of : string -> option float) (todo : list loop_stmt) : Prop :=
  exists decoded_line clk k, todo = drop k (line_stmts float_of decoded_line clk).

(** The shape of the buffers wherever the read thread stands: the
    coordinate deques differ by at most the appends still owed. *)
Record shape (float_of : string -> option float) (st : State) (l : loop_at) : Prop :=
  mkShape {
  shape_quaternion : length (latest_quaternion st) = 1%nat;
  shape_components : Forall (fun q => length q = 4%nat) (latest_quaternion st);
  shape_x : (length (x_positions st) <= 500)%nat;
  shape_y : (length (y_positions st) <= 500)%nat;
  shape_z : (length (z_positions st) <= 500)%nat;
  shape_coordinates :
    match coordinates_owed l with
    | 2%nat => length (z_positions st) = length (y_positions st) /\
               length (x_positions st) = Nat.min (S (length (y_positions st))) 500
    | 1%nat => length (y_positions st) = length (x_positions st) /\
               length (x_positions st) = Nat.min (S (length (z_positions st))) 500
    | _ => length (y_positions st) = length (x_positions st) /\
           length (z_positions st) = length (x_positions st)
    end;
  shape_raw : (length (raw_serial_lines st) <= 200)%nat;
  shape_engines : length (engine_states st) = 3%nat;
  shape_staged : staged float_of (todo_of l)
}.

(** The flags by where the main thread stands. *)
Definition flags_at (m : main_at) (st : State) : Prop :=
  match m with
  | Idle => running st = ser_is_open st
  | Connecting => running st = true /\ ser_is_open st = true
  | Stopping => running st = false /\ ser_is_open st = true
  | Dialog => running st = false /\ ser_is_open st = false
  end.

Record config_inv (float_of : string -> option float) (c : Config) : Prop :=
  mkConfigInv {
  inv_shape : shape float_of (shared c) (read_thread c);
  inv_flags : flags_at (main_thread c) (shared c);
  inv_thread :
    main_thread c = Idle -> ser_is_open (shared c) = false -> read_thread c = NoThread;
  inv_limits :
    (length (x_positions (shared c)) <= 1)%nat -> limits c = default_axes
}.


(** The read thread is in its loop. *)
Definition in_loop (l : loop_at) : bool :=
  match l with InLoop _ => true | _ => false end.

(** ** Concrete runs *)

(** The run used in the concrete checks: a session is opened, a first
    frame is stored whole, and of a second frame the raw line, the
    quaternion and the x coordinate are stored. *)
Definition half_stored_frame : list event :=
  [ConnectOpens "COM3" true; Loop Statement; Loop (TimeReading 1000);
   ConnectStamps 1000;
   Loop (Readline (list_byte_of_string "DATA:1,0,0,0,1,2,3") (clock_at 1003))] ++
  replicate 6 (Loop Statement) ++
  [Loop (Readline (list_byte_of_string "DATA:1,0,0,0,4,5,6") (clock_at 1004));
   Loop Statement; Loop Statement; Loop Statement].


Definition always_returns : plot_call -> bool := fun _ => true.

(** The same session with a third frame whose raw line and quaternion
    are stored. *)
Definition third_frame_started : list event :=
  [ConnectOpens "COM3" true; Loop Statement; Loop (TimeReading 1000);
   ConnectStamps 1000;
   Loop (Readline (list_byte_of_string "DATA:1,0,0,0,1,2,3") (clock_at 1003))] ++
  replicate 6 (Loop Statement) ++
  [Loop (Readline (list_byte_of_string "DATA:1,0,0,0,4,5,6") (clock_at 1004))] ++
  replicate 6 (Loop Statement) ++
  [Loop (Readline (list_byte_of_string "DATA:1,0,0,0,9,9,9") (clock_at 1004));
   Loop Statement; Loop Statement].

(** A session whose first frame arrives five seconds after its start:
    the placeholder flips engine flag 0. *)
Definition engine_toggled : list event :=
  [ConnectOpens "COM3" true; Loop Statement; Loop (TimeReading 1000);
   ConnectStamps 1000;
   Loop (Readline (list_byte_of_string "DATA:1,0,0,0,1,2,3") (clock_at 1005))] ++
  replicate 11 (Loop Statement).

(** The start time that stays can be the thread's: the thread tests
    before line 750 and stores after it. *)
Definition thread_stores_last : list event :=
  [ConnectOpens "COM3" true; Loop Statement; ConnectStamps 1002;
   Loop (TimeReading 1001)].

(** ** The command entry and the displays *)

(** The message boxes [send_typed_command] can show. *)
Inductive dialog : Type :=
  | NotConnectedWarning
  | NoCommandWarning
  | SendError
  | NotConnectedError.

(** The text of [command_entry], the byte strings [ser.write] has
    accepted so far, and the message boxes shown so far. *)
Record Panel : Type := mkPanel {
  command_entry : string;
  written : list (list Byte.byte);
  dialogs : list dialog
}.

Definition newline : ascii := ascii_of_nat 10.

(** [populate_command_entry]: the entry is cleared and the command is
    inserted at its start. *)
Definition populate_command_entry (command : string) (p : Panel) : Panel :=
  mkPanel command (written p) (dialogs p).

(** The statements of the [try] of [send_typed_command] that can
    raise: the write of line 524 with its encoding, the print of line
    525 and the delete of line 526. *)
Inductive send_step : Type := AtWrite | AtPrint | AtDelete.

(** [send_typed_command].  [encode] is [str.encode('utf-8')] and
    [raises] names the statement of the [try] that raises, if one
    does: what stands before it has been done, what stands after it is
    skipped, and the [except] shows the error box. *)
Definition send_typed_command (encode : string -> list Byte.byte)
    (raises : option send_step) (st : State) (p : Panel) : Panel :=
  if negb (ser_is_open st) then
    mkPanel (command_entry p) (written p) (dialogs p ++ [NotConnectedWarning])
  else if ser_is_open st then
    match command_entry p with
    | EmptyString =>
        mkPanel (command_entry p) (written p) (dialogs p ++ [NoCommandWarning])
    | command_text =>
        let sent := written p ++ [encode (command_text ++ String newline EmptyString)%string] in
        match raises with
        | Some AtWrite =>
            mkPanel (command_entry p) (written p) (dialogs p ++ [SendError])
        | Some AtPrint | Some AtDelete =>
            mkPanel (command_entry p) sent (dialogs p ++ [SendError])
        | None => mkPanel EmptyString sent (dialogs p)
        end
    end
  else
    mkPanel (command_entry p) (written p) (dialogs p ++ [NotConnectedError]).

(** How the loop of lines 714-715 ends: at the end of the deque, or
    with the [RuntimeError] of a deque that was mutated during the
    iteration, which no [try] catches. *)
Inductive display_end : Type := Displayed | DequeMutated.

(** [for line in raw_serial_lines: raw_data_text.insert(tk.END, line + "\n")].
    The read thread appends to the same deque (line 565); [arrivals k]
    are the lines it appends between the step before and the [k]-th
    step of the iterator, the first step being number 0.  Each step
    first checks that the deque is as it was when the iterator was
    made, and only then whether an item is left. *)
Fixpoint display_rows (arrivals : nat -> list string) (k : nat)
    (rest : list string) (text : string) : display_end * string :=
  match rest with
  | [] =>
      match arrivals k with
      | [] => (Displayed, text)
      | _ => (DequeMutated, text)
      end
  | line :: rest' =>
      match arrivals k with
      | [] => display_rows arrivals (S k) rest'
                (text ++ (line ++ String newline EmptyString))%string
      | _ => (DequeMutated, text)
      end
  end.

(** [update_raw_serial_display] on the text of [raw_data_text].  With
    no raw line the widget is left alone.  Otherwise the text is
    deleted and the rows are inserted; [before_loop] are the lines the
    read thread appends between the test of line 709 and the start of
    the loop. *)
Definition update_raw_serial_display (before_loop : list string)
    (arrivals : nat -> list string) (st : State) (raw_data_text : string)
    : display_end * string :=
  if nonempty (raw_serial_lines st) then
    display_rows arrivals 0 (deque_extend 200 (raw_serial_lines st) before_loop)
      EmptyString
  else (Displayed, raw_data_text).

(** The fill colours of the three engine circles. *)
Inductive colour : Type := ACCENT_GREEN | DARK_BG_COLOR.

(** [ACCENT_GREEN if engine_states[i] else DARK_BG_COLOR] *)
Definition engine_colour (b : bool) : colour :=
  if b then ACCENT_GREEN else DARK_BG_COLOR.

(** The loop of [update_engine_visuals] over the indices [ixs]: an index
    outside [engine_states] raises, with the circles painted so far. *)
Fixpoint paint_engines (ixs : list nat) (es : list bool) (fills : list colour)
    : result unit * list colour :=
  match ixs with
  | [] => (Ok tt, fills)
  | i :: rest =>
      match es !! i with
      | None => (Raise IndexError, fills)
      | Some b =>
          paint_engines rest es (<[i := engine_colour b]> fills)
      end
  end.

(** [update_engine_visuals]: [for i in range(3)]. *)
Definition update_engine_visuals (st : State) (fills : list colour)
    : result unit * list colour :=
  paint_engines (seq 0 3) (engine_states st) fills.

(** The decoded texts of the reads that are no empty read, in order. *)
Definition texts_read (decode_strip : list Byte.byte -> string)
    (reads : list (list Byte.byte * Clock)) : list string :=
  omap (fun r : list Byte.byte * Clock => match r.1 with
                 | [] => None
                 | _ => Some (decode_strip r.1)
                 end) reads.

(** ** Proof steps used more than once *)

Ltac unfold_M :=
  unfold toggle_engine, elapsed_seconds, index, bind, get, modify, lift, ret, raise in *.

Ltac quiet := repeat split; try done; by left.

Ltac solve_well_formed fs :=
  exists fs; split; [reflexivity|]; split; [reflexivity|]; split;
  [repeat constructor | repeat constructor].

(** ** Facts on strings *)

Lemma has_char_app c a b :
  has_char c (a ++ b)%string = has_char c a || has_char c b.
Proof.
  induction a as [|d a IH]; simpl; [done|].
  rewrite IH. by rewrite orb_assoc.
Qed.

Lemma py_split_not_nil sep s : py_split sep s <> [].
Proof.
  destruct s as [|c r]; simpl; [done|].
  destruct (Ascii.eqb c sep); [done|].
  by destruct (py_split sep r).
Qed.

Lemma py_split_no_sep sep s :
  has_char sep s = false -> py_split sep s = [s].
Proof.
  induction s as [|c r IH]; simpl; [done|].
  intros [Hc Hr]%orb_false_elim. rewrite Hc.
  by rewrite (IH Hr).
Qed.

Lemma py_split_cut sep s r :
  has_char sep s = false ->
  py_split sep (s ++ String sep r)%string = s :: py_split sep r.
Proof.
  induction s as [|c s IH]; simpl.
  - intros _. by rewrite Ascii.eqb_refl.
  - intros [Hc Hs]%orb_false_elim. rewrite Hc.
    by rewrite (IH Hs).
Qed.

Lemma py_split_join sep fs :
  fs <> [] ->
  Forall (fun f => has_char sep f = false) fs ->
  py_split sep (join sep fs) = fs.
Proof.
  induction fs as [|f fs IH]; [done|].
  intros _ Hall. apply Forall_cons in Hall as [Hf Hfs].
  destruct fs as [|g fs].
  - simpl. by apply py_split_no_sep.
  - change (join sep (f :: g :: fs)) with (f ++ String sep (join sep (g :: fs)))%string.
    rewrite py_split_cut by done.
    f_equal. by apply IH.
Qed.

Lemma has_char_join c sep fs :
  c <> sep ->
  Forall (fun f => has_char c f = false) fs ->
  has_char c (join sep fs) = false.
Proof.
  intros Hne. induction fs as [|f fs IH]; [done|].
  intros Hall. apply Forall_cons in Hall as [Hf Hfs].
  destruct fs as [|g fs]; [done|].
  change (join sep (f :: g :: fs)) with (f ++ String sep (join sep (g :: fs)))%string.
  rewrite has_char_app, Hf. cbn [orb].
  change (has_char c (String sep (join sep (g :: fs))))
    with (Ascii.eqb sep c || has_char c (join sep (g :: fs))).
  rewrite (IH Hfs), orb_false_r.
  apply Ascii.eqb_neq. congruence.
Qed.

(** The colon cut of a [DATA:] line: the payload is the text up to the
    next colon. *)
Lemma split_data_line payload :
  py_split colon ("DATA:" ++ payload)%string = "DATA"%string :: py_split colon payload.
Proof.
  simpl. destruct (py_split colon payload) eqn:E; [|done].
  by apply py_split_not_nil in E.
Qed.

Lemma payload_plain payload :
  has_char colon payload = false ->
  py_split colon ("DATA:" ++ payload)%string !! 1%nat = Some payload.
Proof.
  intros Hp. rewrite split_data_line. simpl.
  by rewrite py_split_no_sep.
Qed.

Lemma payload_before_colon payload tail :
  has_char colon payload = false ->
  py_split colon ("DATA:" ++ payload ++ String colon tail)%string !! 1%nat
  = Some payload.
Proof.
  intros Hp. rewrite split_data_line. simpl.
  by rewrite py_split_cut.
Qed.

Lemma startswith_data payload :
  startswith ("DATA:" ++ payload)%string "DATA:" = true.
Proof. unfold startswith. simpl. by destruct payload. Qed.

(** ** What one iteration can touch *)

Lemma toggle_engine_effect clk st :
  let st' := snd (toggle_engine clk st) in
  same_buffers st st' /\
  length (engine_states st') = length (engine_states st) /\
  drop 1 (engine_states st') = drop 1 (engine_states st) /\
  (engine_states st' = engine_states st \/
   toggle_conditions clk st /\
   exists b, engine_states st !! 0%nat = Some b /\
             engine_states st' = <[0%nat := negb b]> (engine_states st) /\
             last_toggle_time st' = Some (t_stamp clk)).
Proof.
  unfold same_buffers, toggle_conditions. unfold_M.
  destruct (start_time st) as [t0|] eqn:Ht0; simpl; [|quiet].
  destruct (py_int (PrimFloat.sub (t_guard_mod clk) t0)) as [e1|] eqn:He1;
    simpl; [|quiet].
  destruct (e1 mod 5 =? 0) eqn:Hmod; simpl; [|quiet].
  rewrite Ht0.
  destruct (py_int (PrimFloat.sub (t_guard_nonzero clk) t0)) as [e2|] eqn:He2;
    simpl; [|quiet].
  destruct (e2 =? 0) eqn:Hz; simpl; [quiet|].
  apply Z.eqb_eq in Hmod. apply Z.eqb_neq in Hz.
  destruct (last_toggle_time st) as [last|] eqn:Hlast; simpl.
  - rewrite Hlast. simpl.
    destruct (PrimFloat.ltb _ _) eqn:Hgt; simpl; [|quiet].
    destruct (engine_states st) as [|b es] eqn:Hes; simpl; rewrite ?Hes; [quiet|].
    repeat split; try done.
    right. split; [by exists t0, e1, e2|]. by exists b.
  - destruct (PrimFloat.ltb _ _) eqn:Hgt; simpl; [|quiet].
    destruct (engine_states st) as [|b es] eqn:Hes; simpl; rewrite ?Hes; [quiet|].
    repeat split; try done.
    right. split; [by exists t0, e1, e2|]. by exists b.
Qed.

(** ** Facts on deques *)

Lemma deque_append_length {A} n (x : A) d :
  length (deque_append n x d)
  = if decide (n < S (length d))%nat then length d else S (length d).
Proof.
  unfold deque_append. rewrite length_app. simpl.
  replace (length d + 1)%nat with (S (length d)) by lia.
  destruct (decide _); [rewrite length_drop|];
    rewrite length_app; simpl; lia.
Qed.

Lemma deque_append_bounded {A} n (x : A) d :
  (length d <= n)%nat -> (length (deque_append n x d) <= n)%nat.
Proof. intros H. rewrite deque_append_length. destruct (decide _); lia. Qed.

Lemma deque_append_drop {A} n (x : A) d :
  (length d <= n)%nat ->
  deque_append n x d = drop (length (d ++ [x]) - n) (d ++ [x]).
Proof.
  intros H. unfold deque_append. rewrite length_app. simpl.
  destruct (decide _) as [Hlt|Hge].
  - by replace (length d + 1 - n)%nat with 1%nat by lia.
  - by replace (length d + 1 - n)%nat with 0%nat by lia.
Qed.

Lemma deque_append_last {A} n (x : A) d :
  (0 < n)%nat -> last (deque_append n x d) = Some x.
Proof.
  intros Hn. unfold deque_append.
  destruct (decide _) as [Hlt|Hge]; [|by rewrite last_snoc].
  rewrite length_app in Hlt. simpl in Hlt.
  destruct d as [|y d]; simpl in *; [lia|].
  by rewrite drop_0, last_snoc.
Qed.

(** A deque of capacity 1 holds exactly the item last appended. *)
Lemma deque_append_one {A} (x : A) d :
  (length d <= 1)%nat -> deque_append 1 x d = [x].
Proof.
  intros H. destruct d as [|y [|z d]]; simpl in H; [done|done|lia].
Qed.

Lemma deque_extend_bounded {A} n (d xs : list A) :
  (length d <= n)%nat -> (length (deque_extend n d xs) <= n)%nat.
Proof.
  revert d. induction xs as [|x xs IH]; intros d Hd; simpl; [done|].
  apply IH. by apply deque_append_bounded.
Qed.

(** Appending a run of items to a deque keeps the newest [n] of all the
    items, in order. *)
Lemma deque_extend_drop {A} n (d xs : list A) :
  (length d <= n)%nat ->
  deque_extend n d xs = drop (length (d ++ xs) - n) (d ++ xs).
Proof.
  revert d. induction xs as [|x xs IH]; intros d Hd.
  - simpl. rewrite app_nil_r.
    by replace (length d - n)%nat with 0%nat by lia.
  - change (deque_extend n d (x :: xs))
      with (deque_extend n (deque_append n x d) xs).
    rewrite IH by by apply deque_append_bounded.
    rewrite deque_append_drop by done.
    set (k := (length (d ++ [x]) - n)%nat).
    assert (k <= length (d ++ [x]))%nat as Hk by (unfold k; lia).
    rewrite <- (drop_app_le (d ++ [x]) xs k) by done.
    rewrite drop_drop, <- app_assoc. simpl.
    f_equal. rewrite length_drop, !length_app. simpl.
    unfold k. rewrite !length_app in *. simpl in *. lia.
Qed.

Lemma deque_extend_length {A} n (xs : list A) :
  length (deque_extend n [] xs) = Nat.min (length xs) n.
Proof.
  rewrite deque_extend_drop by (simpl; lia).
  simpl. rewrite length_drop. lia.
Qed.

(** ** What [parse_fields] does, field by field *)

Section Decoding.

Variable float_of : string -> option float.

(** The state [parse_fields] leaves: nothing is stored when the
    quaternion fields fail, the quaternion alone when a position field
    fails, and otherwise both, followed by the engine placeholder. *)
Lemma parse_fields_state fields clk st :
  snd (parse_fields float_of fields clk st)
  = match read_quaternion float_of fields with
    | None => st
    | Some q =>
        match read_position float_of fields with
        | None => store_quaternion q st
        | Some p => snd (toggle_engine clk (store_position p (store_quaternion q st)))
        end
    end.
Proof.
  unfold read_quaternion, read_position, parse_fields, float_at, py_float.
  unfold index, bind, ret, raise, modify.
  repeat (match goal with
          | |- context [fields !! ?i] => destruct (fields !! i) as [?t|]; simpl; [|done]
          | |- context [float_of ?t] => destruct (float_of t) as [?v|]; simpl; [|done]
          end).
  done.
Qed.

Lemma reads_as_fields fields fr :
  reads_as float_of fields fr ->
  read_quaternion float_of fields = Some [qX fr; qY fr; qZ fr; qW fr] /\
  read_position float_of fields = Some (x_pos fr, y_pos fr, z_pos fr).
Proof.
  unfold reads_as, frame_values, read_quaternion, read_position.
  intros H.
  pose proof (Forall2_length _ _ _ H) as Hlen.
  rewrite length_take in Hlen.
  do 7 (destruct fields as [|? fields]; [simpl in Hlen; lia|]).
  clear Hlen. simpl in H.
  repeat match goal with
         | H : Forall2 _ (_ :: _) (_ :: _) |- _ =>
             apply Forall2_cons in H; destruct H as [? H]
         end.
  simpl. by simplify_option_eq.
Qed.

Lemma store_frame fr st :
  store_position (x_pos fr, y_pos fr, z_pos fr)
    (store_quaternion [qX fr; qY fr; qZ fr; qW fr] st)
  = apply_frame fr st.
Proof. done. Qed.

Lemma parse_fields_frame fields fr clk st :
  reads_as float_of fields fr ->
  snd (parse_fields float_of fields clk st)
  = snd (toggle_engine clk (apply_frame fr st)).
Proof.
  intros [Hq Hp]%reads_as_fields.
  by rewrite parse_fields_state, Hq, Hp, store_frame.
Qed.

(** Only the first seven fields count. *)
Lemma parse_fields_take fields clk st :
  parse_fields float_of fields clk st
  = parse_fields float_of (take 7 fields) clk st.
Proof.
  unfold parse_fields, float_at, index.
  by rewrite !lookup_take_lt by lia.
Qed.

End Decoding.

Lemma zip_deque_append {A B} n (x : A) (y : B) a b :
  length a = length b ->
  zip (deque_append n x a) (deque_append n y b) = deque_append n (x, y) (zip a b).
Proof.
  intros Hlen. unfold deque_append.
  rewrite !length_app, length_zip_with_l_eq, <- Hlen by done. simpl.
  destruct (decide _).
  - by rewrite <- zip_with_drop, zip_with_app.
  - by rewrite zip_with_app.
Qed.

(** ** The invariant of the buffers *)

Lemma initial_state_wf : wf_state initial_state.
Proof. split; simpl; lia. Qed.

Lemma record_raw_line_wf text st : wf_state st -> wf_state (record_raw_line text st).
Proof.
  intros []. split; simpl; try done.
  by apply deque_append_bounded.
Qed.

Lemma store_quaternion_wf q st : wf_state st -> wf_state (store_quaternion q st).
Proof.
  intros []. split; simpl; try done.
  by apply deque_append_bounded.
Qed.

Lemma store_position_wf p st : wf_state st -> wf_state (store_position p st).
Proof.
  intros []. split; simpl; try done.
  - by apply deque_append_bounded.
  - rewrite !deque_append_length. by rewrite wf_y0.
  - rewrite !deque_append_length. by rewrite wf_z0.
Qed.

Lemma toggle_engine_wf clk st : wf_state st -> wf_state (snd (toggle_engine clk st)).
Proof.
  intros [].
  destruct (toggle_engine_effect clk st)
    as ((_ & _ & _ & Hq & Hx & Hy & Hz & Hraw) & Hlen & _).
  split; congruence.
Qed.

Lemma toggle_engine_trail clk st :
  latest_attitude (snd (toggle_engine clk st)) = latest_attitude st /\
  position_trail (snd (toggle_engine clk st)) = position_trail st.
Proof.
  destruct (toggle_engine_effect clk st)
    as ((_ & _ & _ & Hq & Hx & Hy & Hz & Hraw) & _).
  unfold latest_attitude, position_trail. by rewrite Hq, Hx, Hy, Hz.
Qed.

Lemma store_position_trail p st :
  wf_state st ->
  position_trail (store_position p st) = deque_append 500 p (position_trail st).
Proof.
  intros []. unfold position_trail. destruct p as [[x y] z]. simpl.
  rewrite !zip_deque_append; [done| |by rewrite wf_y0].
  by rewrite length_zip_with_l_eq, wf_z0.
Qed.

Lemma position_trail_length st :
  wf_state st -> length (position_trail st) = length (x_positions st).
Proof.
  intros []. unfold position_trail.
  rewrite !length_zip_with. lia.
Qed.

Section Iteration.

Variable decode_strip : list Byte.byte -> string.
Variable float_of : string -> option float.

Lemma parse_fields_wf fields clk st :
  wf_state st -> wf_state (snd (parse_fields float_of fields clk st)).
Proof.
  intros Hwf. rewrite parse_fields_state.
  destruct (read_quaternion float_of fields) as [q|]; [|done].
  destruct (read_position float_of fields) as [p|].
  - by apply toggle_engine_wf, store_position_wf, store_quaternion_wf.
  - by apply store_quaternion_wf.
Qed.

Lemma parse_data_wf line clk st :
  wf_state st -> wf_state (snd (parse_data float_of line clk st)).
Proof.
  intros Hwf. unfold parse_data, index, bind, ret, raise.
  destruct (py_split colon line !! 1%nat) as [payload|]; simpl; [|done].
  by apply parse_fields_wf.
Qed.

Lemma process_line_wf line clk st :
  wf_state st -> wf_state (process_line float_of line clk st).
Proof.
  intros Hwf. unfold process_line.
  fold (record_raw_line line st).
  destruct (startswith line "DATA:").
  - by apply parse_data_wf, record_raw_line_wf.
  - by apply record_raw_line_wf.
Qed.

Lemma read_iteration_wf line clk st :
  wf_state st -> wf_state (read_iteration decode_strip float_of line clk st).
Proof.
  intros Hwf. destruct line; [done|]. by apply process_line_wf.
Qed.

(** A [DATA:] line whose payload holds no further colon is decoded
    from the comma cut of the payload. *)
Lemma process_data_line payload clk st :
  has_char colon payload = false ->
  process_line float_of ("DATA:" ++ payload) clk st
  = snd (parse_fields float_of (py_split comma payload) clk
           (record_raw_line ("DATA:" ++ payload) st)).
Proof.
  intros Hp. unfold process_line.
  rewrite startswith_data.
  unfold parse_data, index, bind.
  by rewrite payload_plain.
Qed.

Lemma process_wire_line fields clk st :
  fields <> [] ->
  Forall no_separator fields ->
  process_line float_of (wire_line fields) clk st
  = snd (parse_fields float_of fields clk
           (record_raw_line (wire_line fields) st)).
Proof.
  intros Hne Hsep. unfold wire_line.
  rewrite process_data_line.
  - rewrite py_split_join; [done|done|].
    eapply Forall_impl; [exact Hsep|]. by intros f [_ ?].
  - apply has_char_join; [done|].
    eapply Forall_impl; [exact Hsep|]. by intros f [? _].
Qed.

(** The state a line with at least seven clean fields leaves when the
    first seven are read as a frame. *)
Lemma process_frame_line fields fr clk st :
  fields <> [] ->
  Forall no_separator fields ->
  reads_as float_of fields fr ->
  process_line float_of (wire_line fields) clk st
  = snd (toggle_engine clk (apply_frame fr (record_raw_line (wire_line fields) st))).
Proof.
  intros Hne Hsep Hread.
  rewrite process_wire_line by done.
  by apply parse_fields_frame.
Qed.

Lemma apply_frame_view fr st :
  wf_state st ->
  latest_attitude (apply_frame fr st) = Some [qX fr; qY fr; qZ fr; qW fr] /\
  x_positions (apply_frame fr st) = deque_append 500 (x_pos fr) (x_positions st) /\
  y_positions (apply_frame fr st) = deque_append 500 (y_pos fr) (y_positions st) /\
  z_positions (apply_frame fr st) = deque_append 500 (z_pos fr) (z_positions st) /\
  position_trail (apply_frame fr st)
  = deque_append 500 (x_pos fr, y_pos fr, z_pos fr) (position_trail st).
Proof.
  intros Hwf. repeat split; try done.
  - unfold latest_attitude, apply_frame. simpl.
    rewrite deque_append_one; [done|]. by destruct Hwf.
  - rewrite <- store_frame, store_position_trail by by apply store_quaternion_wf.
    done.
Qed.

End Iteration.

(** ** Decoding of [DATA:] lines *)

#[local] Set Warnings "-inexact-float".

Local Open Scope string_scope.
Local Open Scope Z_scope.

Lemma fresh_session_wf : wf_state fresh_session.
Proof. split; simpl; lia. Qed.

(** C2: a well-formed line [DATA:qw,qx,qy,qz,x,y,z] stores the quaternion
    in internal order (qx, qy, qz, qw) and appends x, y and z to the three
    coordinate deques, so the trail ends in (x, y, z); the line
    [DATA:0.7071,0,0,0.7071,1,2,3] gives the attitude
    (0, 0, 0.7071, 0.7071) and a trail ending in (1, 2, 3). *)
Theorem data_line_reorders_quaternion :
  (forall float_of line fr clk st,
     wf_state st ->
     well_formed float_of line fr ->
     let st' := process_line float_of line clk st in
     latest_attitude st' = Some [qX fr; qY fr; qZ fr; qW fr] /\
     x_positions st' = deque_append 500 (x_pos fr) (x_positions st) /\
     y_positions st' = deque_append 500 (y_pos fr) (y_positions st) /\
     z_positions st' = deque_append 500 (z_pos fr) (z_positions st) /\
     last (position_trail st') = Some (x_pos fr, y_pos fr, z_pos fr)) /\
  (forall clk st,
     wf_state st ->
     let st' := process_line decimal_float "DATA:0.7071,0,0,0.7071,1,2,3" clk st in
     latest_attitude st' = Some [0%float; 0%float; 0.7071%float; 0.7071%float] /\
     last (position_trail st') = Some (1%float, 2%float, 3%float)).
Proof.
  assert (forall float_of line fr clk st,
     wf_state st ->
     well_formed float_of line fr ->
     let st' := process_line float_of line clk st in
     latest_attitude st' = Some [qX fr; qY fr; qZ fr; qW fr] /\
     x_positions st' = deque_append 500 (x_pos fr) (x_positions st) /\
     y_positions st' = deque_append 500 (y_pos fr) (y_positions st) /\
     z_positions st' = deque_append 500 (z_pos fr) (z_positions st) /\
     last (position_trail st') = Some (x_pos fr, y_pos fr, z_pos fr)) as General.
  { intros float_of line fr clk st Hwf (fields & -> & Hlen & Hsep & Hread) st'.
    assert (fields <> []) as Hne by (by destruct fields).
    subst st'. rewrite (process_frame_line float_of fields fr) by done.
    set (st1 := record_raw_line (wire_line fields) st).
    assert (wf_state st1) as Hwf1 by by apply record_raw_line_wf.
    destruct (toggle_engine_effect clk (apply_frame fr st1))
      as ((_ & _ & _ & Hq & Hx & Hy & Hz & _) & _).
    destruct (toggle_engine_trail clk (apply_frame fr st1)) as [Hatt Htrail].
    destruct (apply_frame_view fr st1 Hwf1) as (Ha & Hax & Hay & Haz & Hat).
    rewrite Hatt, Htrail, Hx, Hy, Hz, Ha, Hax, Hay, Haz, Hat.
    repeat split; try done.
    apply deque_append_last. lia. }
  split; [exact General|].
  intros clk st Hwf.
  destruct (General decimal_float "DATA:0.7071,0,0,0.7071,1,2,3"
              (mkFrame 0.7071 0 0 0.7071 1 2 3) clk st Hwf) as (Ha & _ & _ & _ & Hl).
  { solve_well_formed ["0.7071"; "0"; "0"; "0.7071"; "1"; "2"; "3"]. }
  by split.
Qed.

Lemma data_line_reorders_quaternion_witness :
  wf_state initial_state /\
  well_formed decimal_float "DATA:1,0,0,0,0,0,0" (mkFrame 1 0 0 0 0 0 0) /\
  let st' := process_line decimal_float "DATA:1,0,0,0,0,0,0" (clock_at 1000) initial_state in
  latest_attitude st' = Some [0%float; 0%float; 0%float; 1%float] /\
  x_positions st' = [0%float] /\ y_positions st' = [0%float] /\
  z_positions st' = [0%float] /\
  last (position_trail st') = Some (0%float, 0%float, 0%float).
Proof.
  assert (wf_state initial_state) as Hwf by (split; simpl; lia).
  assert (well_formed decimal_float "DATA:1,0,0,0,0,0,0" (mkFrame 1 0 0 0 0 0 0)) as Hline
    by (solve_well_formed ["1"; "0"; "0"; "0"; "0"; "0"; "0"]).
  split; [exact Hwf|]. split; [exact Hline|].
  exact (proj1 data_line_reorders_quaternion decimal_float _ _ (clock_at 1000) _ Hwf Hline).
Defined.

Lemma toggle_engine_raw clk r st :
  snd (toggle_engine clk (set_raw_serial_lines r st))
  = set_raw_serial_lines r (snd (toggle_engine clk st)).
Proof.
  destruct st as [o rn t0 q x y z es raw last]. unfold_M. simpl.
  destruct t0 as [t0|]; simpl; [|done].
  destruct (py_int _) as [e1|]; simpl; [|done].
  destruct (e1 mod 5 =? 0); simpl; [|done].
  destruct (py_int _) as [e2|]; simpl; [|done].
  destruct (e2 =? 0); simpl; [done|].
  destruct last as [last|]; simpl;
    (destruct (PrimFloat.ltb _ _); simpl; [|done]);
    by destruct es.
Qed.

Lemma parse_fields_raw float_of fields clk r st :
  snd (parse_fields float_of fields clk (set_raw_serial_lines r st))
  = set_raw_serial_lines r (snd (parse_fields float_of fields clk st)).
Proof.
  rewrite !parse_fields_state.
  destruct (read_quaternion float_of fields) as [q|]; [|done].
  destruct (read_position float_of fields) as [p|]; [|done].
  by rewrite <- toggle_engine_raw.
Qed.

(** Every line is recorded as a raw line, and this is independent of
    what its decoding stores. *)
Lemma process_line_decode float_of line clk st :
  process_line float_of line clk st
  = set_raw_serial_lines (deque_append 200 line (raw_serial_lines st))
      (decode_into float_of line clk st).
Proof.
  unfold process_line, decode_into, line_fields, parse_data, index, bind, ret, raise.
  destruct (startswith line "DATA:"); [|done].
  destruct (py_split colon line !! 1%nat) as [payload|]; simpl; [|done].
  apply parse_fields_raw.
Qed.

Lemma line_fields_wire fields :
  fields <> [] -> Forall no_separator fields ->
  line_fields (wire_line fields) = Some fields.
Proof.
  intros Hne Hsep. unfold line_fields, wire_line.
  rewrite payload_plain.
  - simpl. rewrite py_split_join; [done|done|].
    eapply Forall_impl; [exact Hsep|]. by intros f [_ ?].
  - apply has_char_join; [done|].
    eapply Forall_impl; [exact Hsep|]. by intros f [? _].
Qed.

Lemma float_neq (a b : float) : Prim2SF a <> Prim2SF b -> a <> b.
Proof. intros H ->. by apply H. Qed.

(** Two attitudes whose first components differ are different. *)
Lemma attitude_neq (q1 q2 : quaternion) a b :
  q1 !! 0%nat = Some a -> q2 !! 0%nat = Some b ->
  Prim2SF a <> Prim2SF b -> Some q1 <> Some q2.
Proof.
  intros Ha Hb Hne Heq. apply Hne.
  assert (q1 = q2) as Hq by congruence.
  rewrite Hq in Ha. congruence.
Qed.

(** C1: at the failing inputs.  A [DATA:] line cut after its fourth
    field, and one whose seventh field is no number, both end in the
    parse-error branch, with the position trail unchanged but with the
    attitude already overwritten by the four quaternion fields. *)
Theorem malformed_line_overwrites_attitude :
  let cut := process_line decimal_float "DATA:0,1,0,0" (clock_at 1003) fresh_session in
  let bad := process_line decimal_float "DATA:0,1,0,0,1,2,x" (clock_at 1003) fresh_session in
  line_fields "DATA:0,1,0,0" = Some ["0"; "1"; "0"; "0"] /\
  line_fields "DATA:0,1,0,0,1,2,x" = Some ["0"; "1"; "0"; "0"; "1"; "2"; "x"] /\
  decimal_float "x" = None /\
  fst (parse_data decimal_float "DATA:0,1,0,0" (clock_at 1003) fresh_session)
    = Raise IndexError /\
  fst (parse_data decimal_float "DATA:0,1,0,0,1,2,x" (clock_at 1003) fresh_session)
    = Raise ValueError /\
  latest_attitude fresh_session = Some [0%float; 0%float; 0%float; 1%float] /\
  latest_attitude cut = Some [1%float; 0%float; 0%float; 0%float] /\
  latest_attitude bad = Some [1%float; 0%float; 0%float; 0%float] /\
  latest_attitude cut <> latest_attitude fresh_session /\
  latest_attitude bad <> latest_attitude fresh_session /\
  position_trail cut = position_trail fresh_session /\
  position_trail bad = position_trail fresh_session.
Proof.
  repeat split; try reflexivity;
    (apply (attitude_neq _ _ 1%float 0%float);
     [reflexivity | reflexivity | vm_compute; discriminate]).
Qed.

(** What does hold on a [DATA:] line that ends in the parse-error branch:
    the three coordinate deques are never touched, and the attitude is
    kept when the failure lies in the quaternion fields. *)
Lemma failed_line_keeps_trail float_of line clk st :
  (line_fields line ≫= read_quaternion float_of = None \/
   line_fields line ≫= read_position float_of = None) ->
  position_trail (process_line float_of line clk st) = position_trail st.
Proof.
  intros Hfail. rewrite process_line_decode. unfold decode_into.
  destruct (startswith line "DATA:"); [|done].
  destruct (line_fields line) as [fields|]; [|done].
  simpl in Hfail. rewrite parse_fields_state.
  destruct (read_quaternion float_of fields) as [q|]; [|done].
  destruct (read_position float_of fields) as [p|]; [|done].
  by destruct Hfail.
Qed.

Lemma failed_quaternion_keeps_attitude float_of line clk st :
  line_fields line ≫= read_quaternion float_of = None ->
  latest_attitude (process_line float_of line clk st) = latest_attitude st.
Proof.
  intros Hfail. rewrite process_line_decode. unfold decode_into.
  destruct (startswith line "DATA:"); [|done].
  destruct (line_fields line) as [fields|]; [|done].
  simpl in Hfail. by rewrite parse_fields_state, Hfail.
Qed.

(** C3, as stated, fails: the line [DATA:0,1,0,0,1,2,3,4] has eight
    fields, and processing it overwrites the attitude and appends the
    position (1, 2, 3). *)
Lemma surplus_field_line_is_applied :
  let st' := process_line decimal_float "DATA:0,1,0,0,1,2,3,4" (clock_at 1003) fresh_session in
  line_fields "DATA:0,1,0,0,1,2,3,4"
    = Some ["0"; "1"; "0"; "0"; "1"; "2"; "3"; "4"] /\
  fst (parse_data decimal_float "DATA:0,1,0,0,1,2,3,4" (clock_at 1003) fresh_session)
    = Ok tt /\
  latest_attitude st' = Some [1%float; 0%float; 0%float; 0%float] /\
  latest_attitude st' <> latest_attitude fresh_session /\
  position_trail fresh_session = [] /\
  position_trail st' = [(1%float, 2%float, 3%float)] /\
  position_trail st' <> position_trail fresh_session.
Proof.
  repeat split; try reflexivity.
  - apply (attitude_neq _ _ 1%float 0%float);
      [reflexivity | reflexivity | vm_compute; discriminate].
  - intros H. apply (f_equal length) in H. vm_compute in H. discriminate.
Qed.

(** C3, amended: on a [DATA:] line with more than seven fields the
    fields after the seventh are ignored; when the first seven are read
    as numbers, the frame they encode is applied as for a seven-field
    line: the attitude is overwritten in internal order and the position
    is appended. *)
Theorem surplus_fields_ignored :
  forall float_of fields fr clk st,
    wf_state st ->
    (7 < length fields)%nat ->
    Forall no_separator fields ->
    reads_as float_of fields fr ->
    let st' := process_line float_of (wire_line fields) clk st in
    line_fields (wire_line fields) = Some fields /\
    decode_into float_of (wire_line fields) clk st
      = snd (parse_fields float_of (take 7 fields) clk st) /\
    latest_attitude st' = Some [qX fr; qY fr; qZ fr; qW fr] /\
    x_positions st' = deque_append 500 (x_pos fr) (x_positions st) /\
    y_positions st' = deque_append 500 (y_pos fr) (y_positions st) /\
    z_positions st' = deque_append 500 (z_pos fr) (z_positions st) /\
    position_trail st'
      = deque_append 500 (x_pos fr, y_pos fr, z_pos fr) (position_trail st).
Proof.
  intros float_of fields fr clk st Hwf Hlen Hsep Hread st'.
  assert (fields <> []) as Hne by (destruct fields; [simpl in Hlen; lia|done]).
  split; [by apply line_fields_wire|].
  split.
  { unfold decode_into, wire_line at 1. rewrite startswith_data.
    fold (wire_line fields). rewrite line_fields_wire by done.
    by rewrite parse_fields_take. }
  subst st'. rewrite (process_frame_line float_of fields fr) by done.
  set (st1 := record_raw_line (wire_line fields) st).
  assert (wf_state st1) as Hwf1 by by apply record_raw_line_wf.
  destruct (toggle_engine_effect clk (apply_frame fr st1))
    as ((_ & _ & _ & Hq & Hx & Hy & Hz & _) & _).
  destruct (toggle_engine_trail clk (apply_frame fr st1)) as [Hatt Htrail].
  destruct (apply_frame_view fr st1 Hwf1) as (Ha & Hax & Hay & Haz & Hat).
  by rewrite Hatt, Htrail, Hx, Hy, Hz, Ha, Hax, Hay, Haz, Hat.
Qed.

Lemma surplus_fields_ignored_witness :
  wf_state fresh_session /\
  (7 < length ["0"; "1"; "0"; "0"; "1"; "2"; "3"; "4"])%nat /\
  Forall no_separator ["0"; "1"; "0"; "0"; "1"; "2"; "3"; "4"] /\
  reads_as decimal_float ["0"; "1"; "0"; "0"; "1"; "2"; "3"; "4"]
    (mkFrame 0 1 0 0 1 2 3) /\
  let st' := process_line decimal_float "DATA:0,1,0,0,1,2,3,4" (clock_at 1003)
               fresh_session in
  latest_attitude st' = Some [1%float; 0%float; 0%float; 0%float] /\
  position_trail st' = [(1%float, 2%float, 3%float)].
Proof.
  assert (wf_state fresh_session) as Hwf by (split; simpl; lia).
  assert (7 < length ["0"; "1"; "0"; "0"; "1"; "2"; "3"; "4"])%nat as Hlen
    by (simpl; lia).
  assert (Forall no_separator ["0"; "1"; "0"; "0"; "1"; "2"; "3"; "4"]) as Hsep
    by (repeat constructor).
  assert (reads_as decimal_float ["0"; "1"; "0"; "0"; "1"; "2"; "3"; "4"]
            (mkFrame 0 1 0 0 1 2 3)) as Hread
    by (repeat constructor).
  split; [exact Hwf|]. split; [exact Hlen|]. split; [exact Hsep|].
  split; [exact Hread|].
  destruct (surplus_fields_ignored decimal_float _ _ (clock_at 1003) _
              Hwf Hlen Hsep Hread) as (_ & _ & Ha & _ & _ & _ & Ht).
  split; [exact Ha | exact Ht].
Defined.

(** C10: on a [DATA:] line with a further colon, the fields are the comma
    cut of the text between the first and the second colon; what follows
    the second colon reaches the raw-line buffer only.  The decoding is
    the one of the line cut at the second colon, so it is accepted or
    rejected on the text before that colon alone, and
    [DATA:1,0,0,0,1,2,3:junk] is applied as a frame. *)
Theorem text_after_second_colon_discarded :
  (forall float_of payload tail clk st,
     has_char colon payload = false ->
     let line := ("DATA:" ++ payload ++ String colon tail)%string in
     line_fields line = Some (py_split comma payload) /\
     decode_into float_of line clk st
       = snd (parse_fields float_of (py_split comma payload) clk st) /\
     decode_into float_of line clk st
       = decode_into float_of ("DATA:" ++ payload)%string clk st /\
     process_line float_of line clk st
       = set_raw_serial_lines (deque_append 200 line (raw_serial_lines st))
           (decode_into float_of ("DATA:" ++ payload)%string clk st)) /\
  (forall clk st,
     wf_state st ->
     let st' := process_line decimal_float "DATA:1,0,0,0,1,2,3:junk" clk st in
     latest_attitude st' = Some [0%float; 0%float; 0%float; 1%float] /\
     position_trail st'
       = deque_append 500 (1%float, 2%float, 3%float) (position_trail st)).
Proof.
  assert (forall float_of payload tail clk st,
     has_char colon payload = false ->
     let line := ("DATA:" ++ payload ++ String colon tail)%string in
     line_fields line = Some (py_split comma payload) /\
     decode_into float_of line clk st
       = snd (parse_fields float_of (py_split comma payload) clk st) /\
     decode_into float_of line clk st
       = decode_into float_of ("DATA:" ++ payload)%string clk st /\
     process_line float_of line clk st
       = set_raw_serial_lines (deque_append 200 line (raw_serial_lines st))
           (decode_into float_of ("DATA:" ++ payload)%string clk st)) as General.
  { intros float_of payload tail clk st Hp line.
    assert (line_fields line = Some (py_split comma payload)) as Hfields.
    { unfold line_fields, line. by rewrite payload_before_colon. }
    assert (decode_into float_of line clk st
            = snd (parse_fields float_of (py_split comma payload) clk st)) as Hdec.
    { unfold decode_into. rewrite Hfields.
      unfold line. by rewrite startswith_data. }
    assert (decode_into float_of ("DATA:" ++ payload)%string clk st
            = snd (parse_fields float_of (py_split comma payload) clk st)) as Hcut.
    { unfold decode_into, line_fields.
      by rewrite startswith_data, payload_plain. }
    repeat split; [done|done|congruence|].
    by rewrite process_line_decode, Hdec, Hcut. }
  split; [exact General|].
  intros clk st Hwf st'.
  destruct (General decimal_float "1,0,0,0,1,2,3" "junk" clk st eq_refl)
    as (_ & Hdec & _ & Hproc).
  subst st'.
  change ("DATA:" ++ "1,0,0,0,1,2,3" ++ String colon "junk")%string
    with "DATA:1,0,0,0,1,2,3:junk" in *.
  rewrite process_line_decode, Hdec.
  rewrite (parse_fields_frame decimal_float _ (mkFrame 1 0 0 0 1 2 3))
    by (repeat constructor).
  destruct (toggle_engine_trail clk (apply_frame (mkFrame 1 0 0 0 1 2 3) st))
    as [Hatt Htrail].
  destruct (apply_frame_view (mkFrame 1 0 0 0 1 2 3) st Hwf)
    as (Ha & _ & _ & _ & Hat).
  split.
  - change (latest_attitude (set_raw_serial_lines ?r ?s)) with (latest_attitude s).
    by rewrite Hatt, Ha.
  - change (position_trail (set_raw_serial_lines ?r ?s)) with (position_trail s).
    by rewrite Htrail, Hat.
Qed.

Lemma text_after_second_colon_discarded_witness :
  has_char colon "1,0,0,0,1,2,x" = false /\
  wf_state fresh_session /\
  line_fields "DATA:1,0,0,0,1,2,x:3" = Some ["1"; "0"; "0"; "0"; "1"; "2"; "x"] /\
  decode_into decimal_float "DATA:1,0,0,0,1,2,x:3" (clock_at 1003) fresh_session
    = decode_into decimal_float "DATA:1,0,0,0,1,2,x" (clock_at 1003) fresh_session /\
  position_trail
    (process_line decimal_float "DATA:1,0,0,0,1,2,3:junk" (clock_at 1003) fresh_session)
    = [(1%float, 2%float, 3%float)].
Proof.
  assert (wf_state fresh_session) as Hwf by (split; simpl; lia).
  split; [reflexivity|]. split; [exact Hwf|].
  destruct (proj1 text_after_second_colon_discarded decimal_float
              "1,0,0,0,1,2,x" "3" (clock_at 1003) fresh_session eq_refl)
    as (Hf & _ & Hd & _).
  split; [exact Hf|]. split; [exact Hd|].
  exact (proj2 (proj2 text_after_second_colon_discarded (clock_at 1003)
                  fresh_session Hwf)).
Defined.

(** ** Lines that are no telemetry *)

(** C6: a line that was read (not an empty read) and whose decoded text
    does not start with [DATA:] has one effect, the append of the decoded
    text to the raw-line deque: attitude, position trail and engine flags
    are unchanged. *)
Theorem other_line_only_recorded :
  forall decode_strip float_of line clk st,
    line <> [] ->
    startswith (decode_strip line) "DATA:" = false ->
    let st' := read_iteration decode_strip float_of line clk st in
    st' = set_raw_serial_lines
            (deque_append 200 (decode_strip line) (raw_serial_lines st)) st /\
    latest_attitude st' = latest_attitude st /\
    position_trail st' = position_trail st /\
    engine_states st' = engine_states st /\
    latest_quaternion st' = latest_quaternion st /\
    x_positions st' = x_positions st /\
    y_positions st' = y_positions st /\
    z_positions st' = z_positions st /\
    start_time st' = start_time st /\
    last_toggle_time st' = last_toggle_time st.
Proof.
  intros decode_strip float_of line clk st Hline Hprefix st'.
  assert (st' = set_raw_serial_lines
                  (deque_append 200 (decode_strip line) (raw_serial_lines st)) st)
    as ->.
  { subst st'. unfold read_iteration, process_line.
    destruct line; [done|]. by rewrite Hprefix. }
  by repeat split.
Qed.

Lemma other_line_only_recorded_witness :
  let line := list_byte_of_string "STATUS: armed" in
  line <> [] /\
  startswith (ascii_decode line) "DATA:" = false /\
  read_iteration ascii_decode decimal_float line (clock_at 1005) fresh_session
  = set_raw_serial_lines ["STATUS: armed"] fresh_session.
Proof.
  assert (list_byte_of_string "STATUS: armed" <> []) as Hne by (vm_compute; discriminate).
  split; [exact Hne|]. split; [reflexivity|].
  exact (proj1 (other_line_only_recorded ascii_decode decimal_float
                  (list_byte_of_string "STATUS: armed") (clock_at 1005)
                  fresh_session Hne eq_refl)).
Defined.

(** ** A run of lines *)

(** What a line whose first seven fields are read as a frame leaves. *)
Lemma frame_line_view float_of fields fr clk st :
  wf_state st ->
  fields <> [] ->
  Forall no_separator fields ->
  reads_as float_of fields fr ->
  let st' := process_line float_of (wire_line fields) clk st in
  latest_attitude st' = Some [qX fr; qY fr; qZ fr; qW fr] /\
  x_positions st' = deque_append 500 (x_pos fr) (x_positions st) /\
  y_positions st' = deque_append 500 (y_pos fr) (y_positions st) /\
  z_positions st' = deque_append 500 (z_pos fr) (z_positions st) /\
  position_trail st' = deque_append 500 (frame_position fr) (position_trail st).
Proof.
  intros Hwf Hne Hsep Hread st'.
  subst st'. rewrite (process_frame_line float_of fields fr) by done.
  set (st1 := record_raw_line (wire_line fields) st).
  assert (wf_state st1) as Hwf1 by by apply record_raw_line_wf.
  destruct (toggle_engine_effect clk (apply_frame fr st1))
    as ((_ & _ & _ & Hq & Hx & Hy & Hz & _) & _).
  destruct (toggle_engine_trail clk (apply_frame fr st1)) as [Hatt Htrail].
  destruct (apply_frame_view fr st1 Hwf1) as (Ha & Hax & Hay & Haz & Hat).
  by rewrite Hatt, Htrail, Hx, Hy, Hz, Ha, Hax, Hay, Haz, Hat.
Qed.

Lemma feed_wf float_of inputs st :
  wf_state st -> wf_state (feed float_of inputs st).
Proof.
  revert st. induction inputs as [|i inputs IH]; intros st Hwf; [done|].
  apply IH. by apply process_line_wf.
Qed.

Lemma feed_frames float_of inputs frames st :
  wf_state st ->
  Forall2 (fun i fr => well_formed float_of i.1 fr) inputs frames ->
  let st' := feed float_of inputs st in
  x_positions st' = deque_extend 500 (x_positions st) (x_pos <$> frames) /\
  y_positions st' = deque_extend 500 (y_positions st) (y_pos <$> frames) /\
  z_positions st' = deque_extend 500 (z_positions st) (z_pos <$> frames) /\
  position_trail st'
    = deque_extend 500 (position_trail st) (frame_position <$> frames).
Proof.
  intros Hwf Hall. revert st Hwf.
  induction Hall as [|[line clk] fr inputs frames Hline _ IH]; intros st Hwf; [done|].
  destruct Hline as (fields & Hl & Hlen & Hsep & Hread). simpl in Hl. subst line.
  assert (fields <> []) as Hne by (by destruct fields).
  destruct (frame_line_view float_of fields fr clk st Hwf Hne Hsep Hread)
    as (_ & Hx & Hy & Hz & Ht).
  specialize (IH (process_line float_of (wire_line fields) clk st)
                (process_line_wf float_of _ clk st Hwf)).
  simpl in IH. destruct IH as (IHx & IHy & IHz & IHt).
  cbn [feed foldl fst snd fmap list_fmap deque_extend].
  unfold feed, deque_extend in *.
  by rewrite IHx, IHy, IHz, IHt, Hx, Hy, Hz, Ht.
Qed.

(** C4: after N well-formed lines fed to a session whose trail was
    empty, the trail holds the positions of the newest min(N, 500)
    frames in arrival order, the oldest ones having been dropped first;
    after 600 frames these are the positions of frames 101 to 600. *)
Theorem trail_keeps_newest_500 :
  forall float_of inputs frames st,
    wf_state st ->
    x_positions st = [] ->
    Forall2 (fun i fr => well_formed float_of i.1 fr) inputs frames ->
    let st' := feed float_of inputs st in
    let N := length frames in
    length (position_trail st') = Nat.min N 500 /\
    position_trail st' = drop (N - 500) (frame_position <$> frames) /\
    x_positions st' = drop (N - 500) (x_pos <$> frames) /\
    y_positions st' = drop (N - 500) (y_pos <$> frames) /\
    z_positions st' = drop (N - 500) (z_pos <$> frames) /\
    (N = 600%nat ->
     position_trail st' = frame_position <$> drop 100 frames /\
     length (drop 100 frames) = 500%nat).
Proof.
  intros float_of inputs frames st Hwf Hx Hall st' N.
  destruct (feed_frames float_of inputs frames st Hwf Hall) as (Fx & Fy & Fz & Ft).
  assert (y_positions st = []) as Hy.
  { apply length_zero_iff_nil. destruct Hwf. by rewrite wf_y0, Hx. }
  assert (z_positions st = []) as Hz.
  { apply length_zero_iff_nil. destruct Hwf. by rewrite wf_z0, Hx. }
  assert (position_trail st = []) as Ht.
  { unfold position_trail. by rewrite Hx. }
  fold st' in Fx, Fy, Fz, Ft.
  rewrite Hx in Fx. rewrite Hy in Fy. rewrite Hz in Fz. rewrite Ht in Ft.
  rewrite deque_extend_drop in Fx by (simpl; lia).
  rewrite deque_extend_drop in Fy by (simpl; lia).
  rewrite deque_extend_drop in Fz by (simpl; lia).
  rewrite deque_extend_drop in Ft by (simpl; lia).
  simpl in Fx, Fy, Fz, Ft.
  rewrite length_fmap in Fx. rewrite length_fmap in Fy.
  rewrite length_fmap in Fz. rewrite length_fmap in Ft.
  fold N in Fx, Fy, Fz, Ft.
  repeat split; try done.
  - rewrite Ft, length_drop, length_fmap. fold N. lia.
  - rewrite Ft, H. by rewrite fmap_drop.
  - rewrite length_drop. fold N. lia.
Qed.

Lemma Forall2_replicate_l {A B} (P : A -> B -> Prop) n a b :
  P a b -> Forall2 P (replicate n a) (replicate n b).
Proof. intros H. induction n; simpl; by constructor. Qed.

Lemma trail_keeps_newest_500_witness :
  let old := mkFrame 1 0 0 0 1 2 3 in
  let new := mkFrame 1 0 0 0 4 5 6 in
  let inputs := (replicate 100 ("DATA:1,0,0,0,1,2,3", clock_at 1003)
                 ++ replicate 500 ("DATA:1,0,0,0,4,5,6", clock_at 1004))%list in
  let frames := (replicate 100 old ++ replicate 500 new)%list in
  wf_state fresh_session /\
  x_positions fresh_session = [] /\
  Forall2 (fun i fr => well_formed decimal_float i.1 fr) inputs frames /\
  position_trail (feed decimal_float inputs fresh_session)
  = drop (length frames - 500) (frame_position <$> frames).
Proof.
  intros old new inputs frames.
  assert (wf_state fresh_session) as Hwf by (split; simpl; lia).
  assert (Forall2 (fun i fr => well_formed decimal_float i.1 fr) inputs frames) as Hall.
  { apply Forall2_app; apply Forall2_replicate_l; simpl.
    - solve_well_formed ["1"; "0"; "0"; "0"; "1"; "2"; "3"].
    - solve_well_formed ["1"; "0"; "0"; "0"; "4"; "5"; "6"]. }
  split; [exact Hwf|]. split; [reflexivity|]. split; [exact Hall|].
  exact (proj1 (proj2 (trail_keeps_newest_500 decimal_float inputs frames
                         fresh_session Hwf eq_refl Hall))).
Defined.

(** ** Disconnecting *)

Lemma clear_shift b l (ixs : list nat) :
  foldl (fun acc i => <[i := false]> acc) (b :: l) (S <$> ixs)
  = b :: foldl (fun acc i => <[i := false]> acc) l ixs.
Proof.
  revert l. induction ixs as [|i ixs IH]; intros l; [done|].
  simpl. by rewrite IH.
Qed.

Lemma clear_engines_all_false es :
  clear_engines es = replicate (length es) false.
Proof.
  unfold clear_engines. induction es as [|b es IH]; [done|].
  simpl. rewrite <- fmap_S_seq, clear_shift. by rewrite IH.
Qed.

Lemma read_loop_wf decode_strip float_of reads st :
  wf_state st -> wf_state (read_loop decode_strip float_of reads st).
Proof.
  unfold read_loop. revert st.
  induction reads as [|r reads IH]; intros st Hwf; [done|].
  simpl. apply IH. destruct (running st); [|done].
  by apply read_iteration_wf.
Qed.

Lemma read_serial_wf decode_strip float_of now reads st :
  wf_state st -> wf_state (read_serial decode_strip float_of now reads st).
Proof.
  intros Hwf. unfold read_serial, thread_start. apply read_loop_wf.
  destruct (start_time st); [done|]. by destruct Hwf.
Qed.

(** C5: whatever lines a session has read, [disconnect_serial] leaves
    the identity attitude, empty coordinate deques and raw-line deque,
    three cleared engine flags and no start time (and the default plot
    limits). *)
Theorem disconnect_resets_state :
  forall decode_strip float_of now reads st ax,
    wf_state st ->
    let st1 := read_serial decode_strip float_of now reads st in
    let st' := (disconnect_serial st1 ax).1 in
    latest_attitude st' = Some [0%float; 0%float; 0%float; 1%float] /\
    latest_quaternion st' = [identity_quaternion] /\
    position_trail st' = [] /\
    x_positions st' = [] /\ y_positions st' = [] /\ z_positions st' = [] /\
    raw_serial_lines st' = [] /\
    engine_states st' = [false; false; false] /\
    start_time st' = None /\
    running st' = (if ser_is_open st1 then false else running st1) /\
    (disconnect_serial st1 ax).2 = default_axes.
Proof.
  intros decode_strip float_of now reads st ax Hwf st1 st'.
  assert (wf_state st1) as Hwf1 by by apply read_serial_wf.
  assert (engine_states st' = [false; false; false]) as Hes.
  { subst st'. unfold disconnect_serial. simpl.
    rewrite clear_engines_all_false.
    destruct (ser_is_open st1); simpl; by rewrite (wf_engines _ Hwf1). }
  subst st'. unfold disconnect_serial in *. simpl in *.
  repeat split; try done.
  by destruct (ser_is_open st1).
Qed.

Lemma disconnect_resets_state_witness :
  let reads := [(list_byte_of_string "DATA:0,1,0,0,1,2,3", clock_at 1005);
                (list_byte_of_string "hello", clock_at 1006)] in
  let st1 := read_serial ascii_decode decimal_float 1000 reads fresh_session in
  wf_state fresh_session /\
  engine_states st1 = [true; false; false] /\
  position_trail st1 = [(1%float, 2%float, 3%float)] /\
  raw_serial_lines st1 = ["DATA:0,1,0,0,1,2,3"; "hello"] /\
  engine_states (disconnect_serial st1 default_axes).1 = [false; false; false] /\
  raw_serial_lines (disconnect_serial st1 default_axes).1 = [] /\
  start_time (disconnect_serial st1 default_axes).1 = None.
Proof.
  intros reads st1.
  assert (wf_state fresh_session) as Hwf by (split; simpl; lia).
  split; [exact Hwf|]. split; [reflexivity|]. split; [reflexivity|].
  split; [reflexivity|].
  destruct (disconnect_resets_state ascii_decode decimal_float 1000 reads
              fresh_session default_axes Hwf)
    as (_ & _ & _ & _ & _ & _ & Hraw & Hes & Hstart & _).
  split; [exact Hes|]. split; [exact Hraw | exact Hstart].
Defined.

(** ** The engine flags *)

(** The stores of a frame leave the start time, the last toggle time and
    the engine flags alone. *)
Lemma stores_keep_engine float_of fields clk st :
  let st' := snd (parse_fields float_of fields clk st) in
  length (engine_states st') = length (engine_states st) /\
  drop 1 (engine_states st') = drop 1 (engine_states st) /\
  (engine_states st' = engine_states st \/
   toggle_conditions clk st /\
   exists b, engine_states st !! 0%nat = Some b /\
             engine_states st' = <[0%nat := negb b]> (engine_states st) /\
             last_toggle_time st' = Some (t_stamp clk)).
Proof.
  intros st'. subst st'. rewrite parse_fields_state.
  destruct (read_quaternion float_of fields) as [q|]; [|by auto].
  destruct (read_position float_of fields) as [p|]; [|by auto].
  destruct (toggle_engine_effect clk (store_position p (store_quaternion q st)))
    as (_ & Hlen & Hdrop & Hcase).
  by repeat split.
Qed.

(** Flags 1 and 2 are never written by an iteration, and flag 0 changes
    only under the conditions the iteration reads off its clock values. *)
Lemma iteration_engine_effect decode_strip float_of line clk st :
  let st' := read_iteration decode_strip float_of line clk st in
  engine_states st' !! 1%nat = engine_states st !! 1%nat /\
  engine_states st' !! 2%nat = engine_states st !! 2%nat /\
  (engine_states st' !! 0%nat <> engine_states st !! 0%nat ->
   toggle_conditions clk st).
Proof.
  intros st'. subst st'. unfold read_iteration.
  destruct line as [|b line]; [done|].
  rewrite process_line_decode. unfold decode_into.
  change (engine_states (set_raw_serial_lines ?r ?s)) with (engine_states s).
  destruct (startswith _ _); [|done].
  destruct (line_fields _) as [fields|]; [|done].
  destruct (stores_keep_engine float_of fields clk st) as (_ & Hdrop & Hcase).
  repeat split.
  - by rewrite <- !(lookup_drop _ 1 0), Hdrop.
  - by rewrite <- !(lookup_drop _ 1 1), Hdrop.
  - intros Hne. destruct Hcase as [Heq|[Hcond _]]; [|done].
    by rewrite Heq in Hne.
Qed.

(** When both clock reads of the guard fall in the same whole second,
    a change of flag 0 does mean a nonzero multiple of 5 seconds. *)
Lemma toggle_single_reading clk st t0 e :
  start_time st = Some t0 ->
  py_int (PrimFloat.sub (t_guard_mod clk) t0) = Ok e ->
  py_int (PrimFloat.sub (t_guard_nonzero clk) t0) = Ok e ->
  toggle_conditions clk st ->
  e mod 5 = 0 /\ e <> 0.
Proof.
  intros Ht0 He1 He2 (t0' & e1 & e2 & Ht0' & He1' & Hmod & He2' & Hnz & _).
  assert (t0' = t0) as -> by congruence.
  split; congruence.
Qed.

(** C7: at the failing input.  The guard reads the clock twice; with a
    first read 0.999 s and a second read 1.001 s after the session start,
    the first whole-second value is 0 (a multiple of 5) and the second is
    1 (nonzero), so flag 0 is toggled about one second into the session,
    when the elapsed whole seconds are no nonzero multiple of 5. *)
Theorem toggle_at_one_second :
  let clk := mkClock 1000.9990234375 1001.0009765625 1001.0009765625 1001.0009765625 in
  let st' := process_line decimal_float "DATA:1,0,0,0,0,0,0" clk fresh_session in
  start_time fresh_session = Some 1000%float /\
  last_toggle_time fresh_session = None /\
  py_int (PrimFloat.sub (t_guard_mod clk) 1000) = Ok 0 /\
  py_int (PrimFloat.sub (t_guard_nonzero clk) 1000) = Ok 1 /\
  py_int (PrimFloat.sub (t_stamp clk) 1000) = Ok 1 /\
  engine_states fresh_session = [false; false; false] /\
  engine_states st' = [true; false; false] /\
  last_toggle_time st' = Some 1001.0009765625%float.
Proof. repeat split; reflexivity. Qed.

(** ** The two threads, statement by statement *)

Lemma read_quaternion_length float_of fields q :
  read_quaternion float_of fields = Some q -> length q = 4%nat.
Proof.
  unfold read_quaternion. intros H. simplify_option_eq. done.
Qed.

(** ** The statements of an iteration and the iteration *)

Lemma run_placeholder clk st :
  run_stmts (placeholder_stmts clk) st = snd (toggle_engine clk st).
Proof.
  destruct st as [o rn t0 q x y z es raw last].
  unfold placeholder_stmts. unfold_M. cbn [run_stmts exec_stmt].
  unfold elapsed_seconds, bind, get, lift, raise. simpl.
  destruct t0 as [t0|]; simpl; [|done].
  destruct (py_int (PrimFloat.sub (t_guard_mod clk) t0)) as [e1|]; simpl; [|done].
  destruct (e1 mod 5 =? 0); simpl; [|done].
  destruct (py_int (PrimFloat.sub (t_guard_nonzero clk) t0)) as [e2|]; simpl; [|done].
  destruct (e2 =? 0); simpl; [done|].
  destruct last as [last|]; simpl;
    (destruct (PrimFloat.ltb _ _); simpl; [|done]);
    by destruct es.
Qed.

Lemma run_fields float_of fields clk st :
  run_stmts (fields_stmts float_of fields clk) st
  = snd (parse_fields float_of fields clk st).
Proof.
  rewrite parse_fields_state. unfold fields_stmts.
  destruct (read_quaternion float_of fields) as [q|]; [|done].
  destruct (read_position float_of fields) as [[[x y] z]|]; [|done].
  cbn [run_stmts exec_stmt app fst snd].
  by rewrite run_placeholder.
Qed.

Lemma run_line float_of decoded clk st :
  run_stmts (line_stmts float_of decoded clk) st
  = process_line float_of decoded clk st.
Proof.
  unfold line_stmts, process_line, parse_data, line_fields, index, bind, ret, raise.
  cbn [run_stmts exec_stmt]. unfold record_raw_line.
  destruct (startswith decoded "DATA:"); [|done].
  destruct (py_split colon decoded !! 1%nat) as [payload|]; cbn [fmap option_fmap option_map];
    [|done].
  apply run_fields.
Qed.

(** Run in a row, the statements of an iteration are the iteration. *)
Lemma iteration_stmts_run decode_strip float_of line clk st :
  run_stmts (iteration_stmts decode_strip float_of line clk) st
  = read_iteration decode_strip float_of line clk st.
Proof.
  unfold iteration_stmts, read_iteration.
  destruct line as [|b line]; [done|]. apply run_line.
Qed.

Lemma exec_stmt_fixed s st :
  running (exec_stmt s st).1 = running st /\
  ser_is_open (exec_stmt s st).1 = ser_is_open st /\
  start_time (exec_stmt s st).1 = start_time st.
Proof.
  destruct s; simpl; try done.
  - by destruct (elapsed_seconds now st).1.
  - by destruct (elapsed_seconds now st).1.
  - by destruct (last_toggle_time st).
  - by destruct (engine_states st !! 0%nat).
Qed.

(** A statement never shortens a coordinate deque. *)
Lemma exec_stmt_grows s st :
  (length (x_positions st) <= length (x_positions (exec_stmt s st).1))%nat /\
  (length (y_positions st) <= length (y_positions (exec_stmt s st).1))%nat /\
  (length (z_positions st) <= length (z_positions (exec_stmt s st).1))%nat.
Proof.
  destruct s; simpl; try (repeat split; lia);
    try (rewrite deque_append_length; destruct (decide _); repeat split; lia).
  - destruct (elapsed_seconds now st).1; simpl; repeat split; lia.
  - destruct (elapsed_seconds now st).1; simpl; repeat split; lia.
  - destruct (last_toggle_time st); simpl; repeat split; lia.
  - destruct (engine_states st !! 0%nat); simpl; repeat split; lia.
Qed.

Section SessionFacts.

Variable decode_strip : list Byte.byte -> string.
Variable float_of : string -> option float.
Variable returns : plot_call -> bool.

Lemma staged_nil : staged float_of [].
Proof.
  exists ""%string, (clock_at 0), (length (line_stmts float_of ""%string (clock_at 0))).
  by rewrite drop_all.
Qed.

Ltac shape_step :=
  split; simpl;
  repeat match goal with
         | H : coordinates_owed _ = _ |- context [coordinates_owed _] => rewrite H
         end;
  simpl; try done;
  try (by apply deque_append_bounded);
  try apply staged_nil;
  try (rewrite ?deque_append_length; repeat destruct (decide _); lia).

Lemma staged_tail s rest : staged float_of (s :: rest) -> staged float_of rest.
Proof.
  intros (d & clk & k & Hk). exists d, clk, (k + 1)%nat.
  by rewrite <- drop_drop, <- Hk.
Qed.

Lemma staged_iteration line clk :
  staged float_of (iteration_stmts decode_strip float_of line clk).
Proof.
  unfold iteration_stmts. destruct line as [|b line]; [apply staged_nil|].
  by exists (decode_strip (b :: line)), clk, 0%nat.
Qed.

Lemma owed_iteration line clk :
  let owed := coordinates_owed (InLoop (iteration_stmts decode_strip float_of line clk)) in
  owed = 0%nat \/ owed = 3%nat.
Proof.
  unfold iteration_stmts, line_stmts, fields_stmts, coordinates_owed.
  destruct line as [|b line]; [by left|]. simpl.
  destruct (startswith _ _); [|by left].
  destruct (line_fields _) as [fields|]; [|by left].
  destruct (read_quaternion float_of fields) as [q|]; [|by left].
  destruct (read_position float_of fields) as [[[x y] z]|]; [by right|by left].
Qed.


(** The head of what is staged, with the coordinate appends behind it. *)
Lemma staged_head s rest :
  staged float_of (s :: rest) ->
  match s with
  | RawAppend _ =>
      coordinates_owed (InLoop rest) = 0%nat \/ coordinates_owed (InLoop rest) = 3%nat
  | QuaternionAppend q =>
      length q = 4%nat /\
      (coordinates_owed (InLoop rest) = 0%nat \/ coordinates_owed (InLoop rest) = 3%nat)
  | XAppend _ => coordinates_owed (InLoop rest) = 2%nat
  | YAppend _ => coordinates_owed (InLoop rest) = 1%nat
  | _ => coordinates_owed (InLoop rest) = 0%nat
  end.
Proof.
  intros (d & clk & k & Hk). revert Hk.
  unfold line_stmts, fields_stmts, placeholder_stmts, coordinates_owed.
  destruct (startswith d "DATA:").
  2:{ destruct k as [|k]; simpl; [intros [= -> ->]; by left|].
      rewrite drop_nil. discriminate. }
  destruct (line_fields d) as [fields|].
  2:{ destruct k as [|k]; simpl; [intros [= -> ->]; by left|].
      rewrite drop_nil. discriminate. }
  destruct (read_quaternion float_of fields) as [q|] eqn:Hq.
  2:{ destruct k as [|k]; simpl; [intros [= -> ->]; by left|].
      rewrite drop_nil. discriminate. }
  apply read_quaternion_length in Hq.
  destruct (read_position float_of fields) as [[[x y] z]|].
  2:{ destruct k as [|k]; simpl; [intros [= -> ->]; by left|].
      destruct k as [|k]; simpl; [intros [= -> ->]; split; [done|by left]|].
      rewrite drop_nil. discriminate. }
  do 11 (destruct k as [|k]; simpl;
         [intros [= -> ->]; simpl; first [done | by right | by split; [|right]]|]).
  rewrite drop_nil. discriminate.
Qed.


Lemma owed_cons s rest :
  coordinates_owed (InLoop (s :: rest))
  = if is_coordinate s then S (coordinates_owed (InLoop rest))
    else coordinates_owed (InLoop rest).
Proof.
  unfold coordinates_owed. simpl. rewrite filter_cons.
  destruct (is_coordinate s); by destruct (decide _).
Qed.


(** A statement of the loop keeps the shape. *)
Lemma exec_stmt_shape s rest st :
  shape float_of st (InLoop (s :: rest)) ->
  shape float_of (exec_stmt s st).1
    (InLoop (if (exec_stmt s st).2 then rest else [])).
Proof.
  intros [Hq Hc Hx Hy Hz Hco Hraw Hes Hst].
  pose proof (staged_head s rest Hst) as Hhead.
  pose proof (staged_tail s rest Hst) as Htail.
  rewrite owed_cons in Hco.
  destruct s; simpl in *.
  - destruct Hhead as [Hh | Hh]; rewrite Hh in *; shape_step.
  - destruct Hhead as [Hlen [Hh | Hh]]; rewrite Hh in *;
      shape_step; rewrite deque_append_one by lia; by repeat constructor.
  - rewrite Hhead in *. destruct Hco as [Ha Hb]. shape_step.
  - rewrite Hhead in *. destruct Hco as [Ha Hb]. shape_step.
  - rewrite Hhead in *. destruct Hco as [Ha Hb]. shape_step.
  - rewrite Hhead in *.
    destruct (elapsed_seconds now st).1 as [e|]; simpl;
      [destruct (e mod 5 =? 0)|]; shape_step.
  - rewrite Hhead in *.
    destruct (elapsed_seconds now st).1 as [e|]; simpl;
      [destruct (negb (e =? 0))|]; shape_step.
  - rewrite Hhead in *. destruct (last_toggle_time st); shape_step.
  - rewrite Hhead in *. destruct (PrimFloat.ltb _ _); shape_step.
  - rewrite Hhead in *.
    destruct (engine_states st) as [|b es] eqn:Hes'; simpl in *; [done|].
    shape_step.
  - rewrite Hhead in *. shape_step.
Qed.

Lemma loop_step_shape sl e :
  shape float_of sl.1 sl.2 ->
  shape float_of (loop_step decode_strip float_of sl e).1
    (loop_step decode_strip float_of sl e).2.
Proof.
  destruct sl as [st l]. simpl. intros Hshape.
  destruct l as [| | |[|s rest]], e as [|now|line clk]; simpl; try done.
  - destruct Hshape. destruct (start_time st); split; simpl; try done.
  - destruct Hshape. split; simpl; try done.
  - destruct (running st); [done|]. destruct Hshape. split; simpl; try done.
  - destruct (running st); [|done]. destruct Hshape as [Hq Hc Hx Hy Hz Hco Hraw Hes Hst].
    split; simpl; try done; [|apply staged_iteration].
    destruct (owed_iteration line clk) as [Ho | Ho]; simpl in Ho; rewrite Ho; done.
  - pose proof (exec_stmt_shape s rest st Hshape) as H.
    by destruct (exec_stmt s st) as [st' go].
Qed.

Lemma loop_run_shape es sl :
  shape float_of sl.1 sl.2 ->
  shape float_of (loop_run decode_strip float_of es sl).1
    (loop_run decode_strip float_of es sl).2.
Proof.
  unfold loop_run. revert sl.
  induction es as [|e es IH]; intros sl Hshape; [done|].
  simpl. by apply IH, loop_step_shape.
Qed.

(** The steps of the read thread never shorten a coordinate deque and
    leave the flags of the main thread alone. *)
Lemma loop_step_grows sl e :
  let sl' := loop_step decode_strip float_of sl e in
  (length (x_positions sl.1) <= length (x_positions sl'.1))%nat /\
  (length (y_positions sl.1) <= length (y_positions sl'.1))%nat /\
  (length (z_positions sl.1) <= length (z_positions sl'.1))%nat /\
  running sl'.1 = running sl.1 /\ ser_is_open sl'.1 = ser_is_open sl.1.
Proof.
  destruct sl as [st l].
  destruct l as [| | |[|s rest]], e as [|now|line clk]; simpl;
    try (repeat split; first [lia | done]).
  - destruct (running st) eqn:Hrun; simpl; repeat split; first [lia | done].
  - destruct (running st) eqn:Hrun; simpl; repeat split; first [lia | done].
  - destruct (exec_stmt_grows s st) as (Hx & Hy & Hz).
    destruct (exec_stmt_fixed s st) as (Hr & Ho & _).
    by destruct (exec_stmt s st) as [st' go].
Qed.

Lemma loop_run_grows es sl :
  let sl' := loop_run decode_strip float_of es sl in
  (length (x_positions sl.1) <= length (x_positions sl'.1))%nat /\
  (length (y_positions sl.1) <= length (y_positions sl'.1))%nat /\
  (length (z_positions sl.1) <= length (z_positions sl'.1))%nat /\
  running sl'.1 = running sl.1 /\ ser_is_open sl'.1 = ser_is_open sl.1.
Proof.
  unfold loop_run. revert sl.
  induction es as [|e es IH]; intros sl; simpl; [repeat split; lia|].
  destruct (IH (loop_step decode_strip float_of sl e)) as (Hx & Hy & Hz & Hr & Ho).
  destruct (loop_step_grows sl e) as (Hx' & Hy' & Hz' & Hr' & Ho').
  simpl in *. repeat split; try lia; congruence.
Qed.

Lemma loop_run_no_thread es st :
  loop_run decode_strip float_of es (st, NoThread) = (st, NoThread).
Proof.
  unfold loop_run. induction es as [|e es IH]; [done|]. simpl.
  by destruct e.
Qed.

End SessionFacts.

(** ** The events and the calls they are steps of *)

Section EventsAndCalls.

Variable decode_strip : list Byte.byte -> string.
Variable float_of : string -> option float.
Variable returns : plot_call -> bool.

Lemma loop_run_statements n todo st :
  running st = true -> (length todo <= n)%nat ->
  loop_run decode_strip float_of (replicate n Statement) (st, InLoop todo)
  = (run_stmts todo st, InLoop []).
Proof.
  unfold loop_run. revert todo st.
  induction n as [|n IH]; intros todo st Hrun Hlen.
  - by destruct todo; [|simpl in Hlen; lia].
  - destruct todo as [|s rest]; simpl.
    + rewrite Hrun. by apply (IH []); [|simpl; lia].
    + destruct (exec_stmt_fixed s st) as (Hr & _ & _).
      destruct (exec_stmt s st) as [st' go]. simpl in *.
      destruct go.
      * apply IH; [congruence|lia].
      * rewrite (IH [] st'); [done|congruence|simpl; lia].
Qed.

(** The steps of an iteration, no other thread in between, are
    [read_iteration]. *)
Lemma loop_run_iteration line clk st :
  running st = true ->
  loop_run decode_strip float_of
    (Readline line clk ::
     replicate (length (iteration_stmts decode_strip float_of line clk)) Statement)
    (st, InLoop [])
  = (read_iteration decode_strip float_of line clk st, InLoop []).
Proof.
  intros Hrun. unfold loop_run. cbn [foldl loop_step]. rewrite Hrun.
  fold (loop_run decode_strip float_of
          (replicate (length (iteration_stmts decode_strip float_of line clk)) Statement)
          (st, InLoop (iteration_stmts decode_strip float_of line clk))).
  rewrite loop_run_statements by done.
  by rewrite iteration_stmts_run.
Qed.

(** The two steps of [connect_serial], no step of the thread in
    between, are [connect_serial]. *)
Lemma connect_events port now c :
  main_thread c = Idle -> ser_is_open (shared c) = false -> port <> "" ->
  run decode_strip float_of returns [ConnectOpens port true; ConnectStamps now] c
  = mkConfig (connect_serial port true now (shared c)) (limits c) Idle AtStartTest.
Proof.
  intros Hm Hclosed Hport. destruct c as [st ax m l]. simpl in *. subst m.
  destruct port as [|ch port]; [done|]. by rewrite Hclosed.
Qed.

(** The three steps of [disconnect_serial] are [disconnect_serial]. *)
Lemma disconnect_events c :
  main_thread c = Idle -> ser_is_open (shared c) = true ->
  thread_idle (read_thread c) = true ->
  run decode_strip float_of returns [StopLoop; ClosePort; ResetDisplays] c
  = mkConfig (disconnect_serial (shared c) (limits c)).1
      (disconnect_serial (shared c) (limits c)).2 Idle NoThread.
Proof.
  intros Hm Hopen Hidle. destruct c as [st ax m l]. simpl in *. subst m.
  destruct st as [o r t0 lq x y z es raw last]. simpl in *. subst o.
  simpl. rewrite Hidle. reflexivity.
Qed.

End EventsAndCalls.

(** ** The invariant of the two threads *)

Lemma plot_at_cases returns sees ax :
  let ax' := update_position_plot_at returns sees ax in
  ax' = ax \/ ax' = default_axes \/ (1 < length (x_positions (sees LenX)))%nat.
Proof.
  unfold update_position_plot_at.
  destruct (_ && _); [|by left].
  destruct (returns (SetData _ _)); [|by left].
  destruct (returns (Set3dProperties _ _ _)); [|by left].
  destruct (decide _); [by right; right|by right; left].
Qed.

Section ConfigFacts.

Variable decode_strip : list Byte.byte -> string.
Variable float_of : string -> option float.
Variable returns : plot_call -> bool.

Lemma loop_run_app es1 es2 sl :
  loop_run decode_strip float_of (es1 ++ es2) sl
  = loop_run decode_strip float_of es2 (loop_run decode_strip float_of es1 sl).
Proof. unfold loop_run. by rewrite foldl_app. Qed.

(** A later read of a tick finds what the read thread made of the
    state an earlier read found. *)
Lemma tick_at_later between sl r r' :
  (read_number r <= read_number r')%nat ->
  exists es, tick_at decode_strip float_of between sl r'
             = loop_run decode_strip float_of es
                 (tick_at decode_strip float_of between sl r).
Proof.
  intros Hle. unfold tick_at, reads_until.
  exists (drop (S (read_number r)) (take (S (read_number r')) tick_reads) ≫= between).
  rewrite <- loop_run_app, <- bind_app. do 2 f_equal.
  rewrite <- (take_drop (S (read_number r)) (take (S (read_number r')) tick_reads)) at 1.
  f_equal. rewrite take_take. f_equal. lia.
Qed.


Lemma initial_config_inv : config_inv float_of initial_config.
Proof.
  split; simpl; try done.
  split; simpl; try done; try lia.
  - by repeat constructor.
  - apply staged_nil.
Qed.

Lemma disconnect_serial_shape st ax l :
  shape float_of st l -> shape float_of (disconnect_serial st ax).1 NoThread.
Proof.
  intros [Hq Hc Hx Hy Hz Hco Hraw Hes Hst]. unfold disconnect_serial.
  split; simpl; try done; try lia.
  - by repeat constructor.
  - rewrite clear_engines_all_false, length_replicate.
    by destruct (ser_is_open st).
  - apply staged_nil.
Qed.

Lemma exec_event_inv e c :
  config_inv float_of c ->
  config_inv float_of (exec_event decode_strip float_of returns e c).
Proof.
  intros Hinv. destruct c as [st ax m l].
  pose proof Hinv as [Hshape Hflags Hthread Hlimits]. simpl in Hshape, Hflags, Hthread, Hlimits.
  destruct e as [e|port opens|now| | | |between]; cbn [exec_event shared limits main_thread read_thread].
  - pose proof (loop_step_shape decode_strip float_of (st, l) e Hshape) as Hs.
    destruct (loop_step_grows decode_strip float_of (st, l) e) as (Hx & _ & _ & Hr & Ho).
    cbn [fst snd shared limits main_thread read_thread] in *.
    split; cbn [shared limits main_thread read_thread]; try done.
    + unfold flags_at in *. destruct m; rewrite ?Hr, ?Ho; done.
    + intros Hm Hclosed. rewrite Ho in Hclosed. rewrite (Hthread Hm Hclosed). by destruct e.
    + intros Hlen. apply Hlimits. lia.
  - simpl. destruct m; try done. destruct port as [|ch port]; [done|].
    destruct opens; simpl; [|done].
    destruct (ser_is_open st) eqn:Hopen; simpl; [done|].
    rewrite (Hthread eq_refl eq_refl) in Hshape.
    split; simpl; [|done|done|done].
    by destruct Hshape.
  - simpl. destruct m; try done. destruct Hflags as [Hr Ho].
    split; simpl; [|congruence|congruence|done].
    by destruct Hshape.
  - simpl. destruct m; try done. destruct (ser_is_open st) eqn:Hopen; [|done].
    split; simpl; [|done|done|done].
    by destruct Hshape.
  - simpl. destruct m; try done. destruct Hflags as [Hr Ho].
    split; simpl; [|done|done|done].
    by destruct Hshape.
  - simpl. destruct (thread_idle l && negb (ser_is_open st)) eqn:Hidle; [|done].
    apply andb_prop in Hidle as [Hidle Hclosed].
    apply negb_true_iff in Hclosed.
    assert (running st = false) as Hrun.
    { destruct m; simpl in Hflags; [congruence|destruct Hflags; congruence..]. }
    destruct m; try done.
    + split; simpl; [by apply (disconnect_serial_shape st ax l)| |done|done].
      rewrite Hclosed. simpl. congruence.
    + split; simpl; [by apply (disconnect_serial_shape st ax l)| |done|done].
      rewrite Hclosed. simpl. congruence.
  - assert (let sl := tick_at decode_strip float_of between (st, l) MaxZ in
            let sees r := (tick_at decode_strip float_of between (st, l) r).1 in
            config_inv float_of
              (mkConfig sl.1 (update_position_plot_at returns sees ax) m sl.2)) as Htick.
    { intros sl sees.
      assert (forall r, exists es,
                tick_at decode_strip float_of between (st, l) r
                = loop_run decode_strip float_of es (st, l)) as Hfrom
        by (intros r; by eexists).
      destruct (Hfrom MaxZ) as (es & Hes).
      pose proof (loop_run_shape decode_strip float_of es (st, l) Hshape) as Hs.
      destruct (loop_run_grows decode_strip float_of es (st, l)) as (Hx & _ & _ & Hr & Ho).
      fold sl in Hes. rewrite <- Hes in *. simpl in *.
      split; simpl; try done.
      - destruct m; simpl in *; by rewrite Hr, Ho.
      - intros Hm Hclosed. rewrite Ho in Hclosed.
        rewrite Hes, (Hthread Hm Hclosed). by rewrite loop_run_no_thread.
      - intros Hlen.
        destruct (plot_at_cases returns sees ax) as [-> | [-> | Hbig]]; [|done|].
        + apply Hlimits. lia.
        + exfalso.
          destruct (tick_at_later between (st, l) LenX MaxZ) as (es' & Hes');
            [simpl; lia|].
          destruct (loop_run_grows decode_strip float_of es'
                      (tick_at decode_strip float_of between (st, l) LenX))
            as (Hx' & _).
          rewrite <- Hes' in Hx'. fold sl in Hx'. subst sees. simpl in *. lia. }
    by destruct m.
Qed.

Lemma run_inv events c :
  config_inv float_of c ->
  config_inv float_of (run decode_strip float_of returns events c).
Proof.
  unfold run. revert c.
  induction events as [|e events IH]; intros c Hinv; [done|].
  simpl. by apply IH, exec_event_inv.
Qed.

Lemma reachable_inv c :
  reachable decode_strip float_of returns c -> config_inv float_of c.
Proof. intros [events ->]. apply run_inv, initial_config_inv. Qed.

End ConfigFacts.

(** ** The limits of the position plot *)

Lemma nonempty_length {A} (d : list A) : nonempty d = bool_decide (0 < length d)%nat.
Proof. by destruct d. Qed.





Lemma margin_between_same d : margin_between d d = margin_limits d.
Proof. done. Qed.

(** With every read on the same state and every call returning, the
    block is [update_position_plot]. *)
Lemma update_position_plot_at_once st ax :
  update_position_plot_at (fun _ => true) (fun _ => st) ax = update_position_plot st ax.
Proof.
  unfold update_position_plot_at, update_position_plot, margin_between.
  destruct (_ && _); [|done]. destruct (decide _); [|done].
  destruct (py_min (x_positions st)); [|done].
  destruct (py_max (x_positions st)); simpl; [|done].
  destruct (py_min (y_positions st)); [|done].
  destruct (py_max (y_positions st)); simpl; [|done].
  destruct (py_min (z_positions st)); [|done].
  by destruct (py_max (z_positions st)).
Qed.



Section TickFacts.

Variable decode_strip : list Byte.byte -> string.
Variable float_of : string -> option float.
Variable returns : plot_call -> bool.



End TickFacts.



(** The state the first run stops in: the trail holds one point, and
    the x deque already holds the x coordinate of the second. *)
Lemma half_stored_frame_state :
  let c := run ascii_decode decimal_float always_returns half_stored_frame initial_config in
  x_positions (shared c) = [1%float; 4%float] /\
  y_positions (shared c) = [2%float] /\
  z_positions (shared c) = [3%float] /\
  read_thread c = InLoop ([YAppend 5; ZAppend 6] ++ placeholder_stmts (clock_at 1004)) /\
  main_thread c = Idle.
Proof. repeat split; reflexivity. Qed.


(** A tick the loop interleaves: the third frame's x coordinate is
    appended between [min(x_positions)] and [max(x_positions)], so the
    lower x limit stems from two values and the upper one from three. *)

(** A tick the loop interleaves: the third frame's x coordinate is
    appended between [min(x_positions)] and [max(x_positions)], so the
    lower x limit stems from two values and the upper one from three. *)
Lemma interleaved_tick_mixes_moments :
  let c := run ascii_decode decimal_float always_returns third_frame_started
             initial_config in
  let between r := match r with MaxX => [Statement] | _ => [] end in
  let c' := exec_event ascii_decode decimal_float always_returns (RenderTick between) c in
  x_positions (shared c) = [1%float; 4%float] /\
  x_positions (shared c') = [1%float; 4%float; 9%float] /\
  y_positions (shared c') = [2%float; 5%float] /\
  limits c' = mkAxes (0%float, 10%float) (1%float, 6%float) (2%float, 7%float).
Proof. repeat split; reflexivity. Qed.

(** ** The two threads on the position deques *)

Lemma foldl_snoc {A B} (f : A -> B -> A) a l x :
  foldl f a (l ++ [x])%list = f (foldl f a l) x.
Proof. revert a. induction l as [|y l IH]; intros a; simpl; [done|]. by rewrite IH. Qed.

Lemma deque_extend_snoc {A} n (d xs : list A) v :
  deque_extend n d (xs ++ [v])%list = deque_append n v (deque_extend n d xs).
Proof. unfold deque_extend. by rewrite foldl_snoc. Qed.

Lemma window_prefix (v1 v2 : list float) :
  window (v1 ++ v2)%list (deque_extend 500 [] v1).
Proof.
  exists (length v1). split; [rewrite length_app; lia|].
  rewrite take_app_length, deque_extend_drop by (simpl; lia). done.
Qed.

Lemma window_nil vals : window vals [].
Proof. exists 0%nat. split; [lia|]. by rewrite take_0. Qed.

Lemma window_bounded vals l : window vals l -> (length l <= 500)%nat.
Proof.
  intros (n & Hn & ->). rewrite length_drop, length_take. lia.
Qed.

Lemma xs_of_program frames : xs_of (frames ≫= frame_appends) = x_pos <$> frames.
Proof.
  induction frames as [|fr frames IH]; [done|].
  rewrite bind_cons. unfold xs_of in *. by rewrite omap_app, IH.
Qed.

Lemma ys_of_program frames : ys_of (frames ≫= frame_appends) = y_pos <$> frames.
Proof.
  induction frames as [|fr frames IH]; [done|].
  rewrite bind_cons. unfold ys_of in *. by rewrite omap_app, IH.
Qed.

Lemma zs_of_program frames : zs_of (frames ≫= frame_appends) = z_pos <$> frames.
Proof.
  induction frames as [|fr frames IH]; [done|].
  rewrite bind_cons. unfold zs_of in *. by rewrite omap_app, IH.
Qed.

Lemma conc_inv_store program c :
  conc_inv program c ->
  window (xs_of program) (x_positions (store c)) /\
  window (ys_of program) (y_positions (store c)) /\
  window (zs_of program) (z_positions (store c)).
Proof.
  intros [d -> Hx Hy Hz _ _ _].
  rewrite Hx, Hy, Hz. unfold xs_of, ys_of, zs_of. rewrite !omap_app.
  repeat split; apply window_prefix.
Qed.

Lemma writer_step_inv program c :
  conc_inv program c -> conc_inv program (writer_step c).
Proof.
  intros [d Hp Hx Hy Hz Hcx Hcy Hobs]. unfold writer_step.
  destruct (pending c) as [|s rest] eqn:Hpend.
  - by apply (mkConcInv _ _ d); rewrite ?Hpend.
  - apply (mkConcInv _ _ (d ++ [s])%list); simpl; try done.
    + by rewrite <- app_assoc.
    + unfold xs_of. rewrite omap_app. fold (xs_of d).
      destruct s; simpl; rewrite ?app_nil_r; try done.
      by rewrite deque_extend_snoc, Hx.
    + unfold ys_of. rewrite omap_app. fold (ys_of d).
      destruct s; simpl; rewrite ?app_nil_r; try done.
      by rewrite deque_extend_snoc, Hy.
    + unfold zs_of. rewrite omap_app. fold (zs_of d).
      destruct s; simpl; rewrite ?app_nil_r; try done.
      by rewrite deque_extend_snoc, Hz.
Qed.

Lemma reader_step_inv program c :
  conc_inv program c -> conc_inv program (reader_step c).
Proof.
  intros Hinv.
  destruct (conc_inv_store program c Hinv) as (Wx & Wy & Wz).
  destruct Hinv as [d Hp Hx Hy Hz Hcx Hcy Hobs]. unfold reader_step, goto.
  destruct (pc c).
  - destruct (nonempty _); by apply (mkConcInv _ _ d).
  - destruct (nonempty _); by apply (mkConcInv _ _ d).
  - destruct (nonempty _); by apply (mkConcInv _ _ d).
  - by apply (mkConcInv _ _ d).
  - by apply (mkConcInv _ _ d).
  - apply (mkConcInv _ _ d); simpl; try done.
    apply Forall_app. split; [done|]. by repeat constructor.
Qed.

Lemma run_schedule_inv program sched c :
  conc_inv program c -> conc_inv program (run_schedule sched c).
Proof.
  unfold run_schedule. revert c.
  induction sched as [|t sched IH]; intros c Hinv; [done|].
  simpl. apply IH. destruct t; [by apply writer_step_inv|by apply reader_step_inv].
Qed.

Lemma start_conc_inv frames st :
  x_positions st = [] -> y_positions st = [] -> z_positions st = [] ->
  conc_inv (frames ≫= frame_appends) (start_conc frames st).
Proof.
  intros Hx Hy Hz.
  apply (mkConcInv _ _ []); simpl; try done; apply window_nil.
Qed.

(** C8, as stated, fails: with the first frame complete and the render
    tick running between the x append and the y append of the second
    frame, the tick hands over the x value of the second point without
    its y and z values. *)
Lemma torn_snapshot_is_observed :
  let frames := [mkFrame 1 0 0 0 1 2 3; mkFrame 1 0 0 0 4 5 6] in
  let sched := [Writer; Writer; Writer; Reader; Reader; Reader;
                Writer; Reader; Reader; Reader; Writer; Writer] in
  let c := run_schedule sched (start_conc frames fresh_session) in
  observed c = [mkSnapshot [1%float; 4%float] [2%float] [3%float]] /\
  position_trail (store c)
    = [(1%float, 2%float, 3%float); (4%float, 5%float, 6%float)] /\
  (exists s, s ∈ observed c /\ length (snap_x s) <> length (snap_y s)).
Proof.
  repeat split; try reflexivity.
  eexists. split; [apply list_elem_of_here|]. vm_compute. lia.
Qed.

(** C8, amended: whatever the schedule of the two threads, each of the
    three coordinate lists a render tick hands over is a run of
    consecutive values of that coordinate, in insertion order, of length
    at most 500 (the newest of the first n values appended, for some n);
    the three lists of one tick need not stop at the same point. *)
Theorem snapshot_lists_in_order :
  forall frames sched st s,
    x_positions st = [] -> y_positions st = [] -> z_positions st = [] ->
    s ∈ observed (run_schedule sched (start_conc frames st)) ->
    window (x_pos <$> frames) (snap_x s) /\
    window (y_pos <$> frames) (snap_y s) /\
    window (z_pos <$> frames) (snap_z s) /\
    (length (snap_x s) <= 500)%nat /\
    (length (snap_y s) <= 500)%nat /\
    (length (snap_z s) <= 500)%nat.
Proof.
  intros frames sched st s Hx Hy Hz Hin.
  pose proof (run_schedule_inv _ sched _ (start_conc_inv frames st Hx Hy Hz)) as Hinv.
  destruct Hinv as [_ _ _ _ _ _ _ Hobs].
  rewrite Forall_forall in Hobs. specialize (Hobs s Hin).
  rewrite xs_of_program, ys_of_program, zs_of_program in Hobs.
  destruct Hobs as (Wx & Wy & Wz).
  repeat split; try done; by eapply window_bounded.
Qed.

Lemma snapshot_lists_in_order_witness :
  let frames := [mkFrame 1 0 0 0 1 2 3; mkFrame 1 0 0 0 4 5 6] in
  let sched := [Writer; Writer; Writer; Reader; Reader; Reader;
                Writer; Reader; Reader; Reader; Writer; Writer] in
  let s := mkSnapshot [1%float; 4%float] [2%float] [3%float] in
  x_positions fresh_session = [] /\
  s ∈ observed (run_schedule sched (start_conc frames fresh_session)) /\
  window [1%float; 4%float] (snap_x s) /\
  window [2%float; 5%float] (snap_y s) /\
  window [3%float; 6%float] (snap_z s).
Proof.
  intros frames sched s.
  assert (s ∈ observed (run_schedule sched (start_conc frames fresh_session))) as Hin
    by apply list_elem_of_here.
  split; [reflexivity|]. split; [exact Hin|].
  destruct (snapshot_lists_in_order frames sched fresh_session s
              eq_refl eq_refl eq_refl Hin) as (Wx & Wy & Wz & _).
  split; [exact Wx|]. split; [exact Wy | exact Wz].
Defined.

(** ** The read loop beyond the frames *)

Lemma parse_fields_fixed float_of fields clk st :
  let st' := snd (parse_fields float_of fields clk st) in
  ser_is_open st' = ser_is_open st /\ running st' = running st /\
  start_time st' = start_time st /\
  raw_serial_lines st' = raw_serial_lines st.
Proof.
  intros st'. subst st'. rewrite parse_fields_state.
  destruct (read_quaternion float_of fields) as [q|]; [|done].
  destruct (read_position float_of fields) as [p|]; [|done].
  destruct (toggle_engine_effect clk (store_position p (store_quaternion q st)))
    as ((Ho & Hr & Ht & _ & _ & _ & _ & Hraw) & _).
  by rewrite Ho, Hr, Ht, Hraw.
Qed.

Lemma process_line_fixed float_of line clk st :
  let st' := process_line float_of line clk st in
  ser_is_open st' = ser_is_open st /\ running st' = running st /\
  start_time st' = start_time st /\
  raw_serial_lines st' = deque_append 200 line (raw_serial_lines st).
Proof.
  intros st'. subst st'. rewrite process_line_decode. unfold decode_into. simpl.
  destruct (startswith line "DATA:"); [|done].
  destruct (line_fields line) as [fields|]; [|done].
  destruct (parse_fields_fixed float_of fields clk st) as (Ho & Hr & Ht & _).
  by rewrite Ho, Hr, Ht.
Qed.

Lemma read_iteration_fixed decode_strip float_of line clk st :
  let st' := read_iteration decode_strip float_of line clk st in
  ser_is_open st' = ser_is_open st /\ running st' = running st /\
  start_time st' = start_time st.
Proof.
  intros st'. subst st'. unfold read_iteration. destruct line as [|b line]; [done|].
  destruct (process_line_fixed float_of (decode_strip (b :: line)) clk st)
    as (Ho & Hr & Ht & _).
  done.
Qed.

Lemma read_loop_raw decode_strip float_of reads st :
  running st = true ->
  raw_serial_lines (read_loop decode_strip float_of reads st)
  = deque_extend 200 (raw_serial_lines st) (texts_read decode_strip reads).
Proof.
  unfold read_loop. revert st.
  induction reads as [|[line clk] reads IH]; intros st Hrun; [done|].
  simpl. rewrite Hrun. unfold texts_read. simpl.
  destruct line as [|b line]; simpl.
  - by apply IH.
  - destruct (process_line_fixed float_of (decode_strip (b :: line)) clk st)
      as (_ & Hr & _ & Hraw).
    rewrite IH by by rewrite Hr.
    by rewrite Hraw.
Qed.

(** X1: the raw-line deque counts every read that returned bytes,
    decodable as a frame or not: from an empty deque, after the loop has
    processed the reads it holds the newest min(N, 200) decoded texts in
    arrival order, N being the number of reads that were not empty. *)
Theorem raw_lines_keep_newest_200 :
  forall decode_strip float_of reads st,
    running st = true ->
    raw_serial_lines st = [] ->
    let texts := texts_read decode_strip reads in
    let st' := read_loop decode_strip float_of reads st in
    raw_serial_lines st' = drop (length texts - 200) texts /\
    length (raw_serial_lines st') = Nat.min (length texts) 200.
Proof.
  intros decode_strip float_of reads st Hrun Hraw texts st'.
  assert (raw_serial_lines st' = drop (length texts - 200) texts) as Heq.
  { subst st'. rewrite read_loop_raw, Hraw by done.
    by rewrite deque_extend_drop by (simpl; lia). }
  split; [done|]. rewrite Heq, length_drop. lia.
Qed.

Lemma raw_lines_keep_newest_200_witness :
  let reads := (replicate 150 (list_byte_of_string "DATA:bad", clock_at 1001)
                ++ replicate 3 ([], clock_at 1002)
                ++ replicate 100 (list_byte_of_string "hello", clock_at 1003))%list in
  running fresh_session = true /\
  raw_serial_lines fresh_session = [] /\
  raw_serial_lines (read_loop ascii_decode decimal_float reads fresh_session)
  = (replicate 100 "DATA:bad" ++ replicate 100 "hello")%list.
Proof.
  intros reads.
  split; [reflexivity|]. split; [reflexivity|].
  exact (proj1 (raw_lines_keep_newest_200 ascii_decode decimal_float reads
                  fresh_session eq_refl eq_refl)).
Defined.

(** X3: the loop itself never writes [running], the port or the start
    time: whatever is read, they are after the loop what they were
    before it. *)
Theorem loop_keeps_session_flags :
  forall decode_strip float_of reads st,
    let st' := read_loop decode_strip float_of reads st in
    running st' = running st /\
    ser_is_open st' = ser_is_open st /\
    start_time st' = start_time st.
Proof.
  intros decode_strip float_of reads st. unfold read_loop. revert st.
  induction reads as [|[line clk] reads IH]; intros st; [done|].
  cbn [foldl fst snd].
  set (st1 := if running st
              then read_iteration decode_strip float_of line clk st else st).
  assert (running st1 = running st /\ ser_is_open st1 = ser_is_open st /\
          start_time st1 = start_time st) as (Hr & Ho & Ht).
  { subst st1. destruct (running st) eqn:Hrun; [|done].
    destruct (read_iteration_fixed decode_strip float_of line clk st)
      as (Ho & Hr & Ht).
    by rewrite Ho, Hr, Ht. }
  destruct (IH st1) as (IHr & IHo & IHt).
  cbv zeta in *. by rewrite IHr, IHo, IHt, Hr, Ho, Ht.
Qed.

(** ** The shape of the state *)



(** ** Partial lines *)

(** X5: the three coordinate deques change together or not at all.
    After any line, either the trail is what it was, or the line started
    with [DATA:], all seven of its first fields were read, the attitude
    is the quaternion read and the trail got the one point read: no
    coordinate is ever stored without the other two. *)
Theorem position_stored_whole_or_not :
  forall float_of line clk st,
    wf_state st ->
    let st' := process_line float_of line clk st in
    (x_positions st' = x_positions st /\ y_positions st' = y_positions st /\
     z_positions st' = z_positions st) \/
    (exists fields q p,
       startswith line "DATA:" = true /\
       line_fields line = Some fields /\
       read_quaternion float_of fields = Some q /\
       read_position float_of fields = Some p /\
       latest_attitude st' = Some q /\
       x_positions st' = deque_append 500 p.1.1 (x_positions st) /\
       y_positions st' = deque_append 500 p.1.2 (y_positions st) /\
       z_positions st' = deque_append 500 p.2 (z_positions st) /\
       position_trail st' = deque_append 500 p (position_trail st)).
Proof.
  intros float_of line clk st Hwf st'. subst st'.
  rewrite process_line_decode. unfold decode_into.
  change (x_positions (set_raw_serial_lines ?r ?s)) with (x_positions s).
  change (y_positions (set_raw_serial_lines ?r ?s)) with (y_positions s).
  change (z_positions (set_raw_serial_lines ?r ?s)) with (z_positions s).
  change (latest_attitude (set_raw_serial_lines ?r ?s)) with (latest_attitude s).
  change (position_trail (set_raw_serial_lines ?r ?s)) with (position_trail s).
  destruct (startswith line "DATA:") eqn:Hprefix; [|by left].
  destruct (line_fields line) as [fields|] eqn:Hfields; [|by left].
  rewrite parse_fields_state.
  destruct (read_quaternion float_of fields) as [q|] eqn:Hq; [|by left].
  destruct (read_position float_of fields) as [p|] eqn:Hp; [|by left].
  right. exists fields, q, p.
  destruct (toggle_engine_effect clk (store_position p (store_quaternion q st)))
    as ((_ & _ & _ & _ & Hx & Hy & Hz & _) & _).
  destruct (toggle_engine_trail clk (store_position p (store_quaternion q st)))
    as [Hatt Htrail].
  rewrite Hatt, Htrail, Hx, Hy, Hz.
  repeat split; try done.
  - unfold latest_attitude. simpl. rewrite deque_append_one; [done|]. by destruct Hwf.
  - by rewrite store_position_trail by by apply store_quaternion_wf.
Qed.

Lemma position_stored_whole_or_not_witness :
  wf_state fresh_session /\
  let st' := process_line decimal_float "DATA:0,1,0,0,1,2" (clock_at 1003)
               fresh_session in
  (x_positions st' = x_positions fresh_session /\
   y_positions st' = y_positions fresh_session /\
   z_positions st' = z_positions fresh_session) \/
  (exists fields q p,
     startswith "DATA:0,1,0,0,1,2" "DATA:" = true /\
     line_fields "DATA:0,1,0,0,1,2" = Some fields /\
     read_quaternion decimal_float fields = Some q /\
     read_position decimal_float fields = Some p /\
     latest_attitude st' = Some q /\
     x_positions st' = deque_append 500 p.1.1 (x_positions fresh_session) /\
     y_positions st' = deque_append 500 p.1.2 (y_positions fresh_session) /\
     z_positions st' = deque_append 500 p.2 (z_positions fresh_session) /\
     position_trail st' = deque_append 500 p (position_trail fresh_session)).
Proof.
  assert (wf_state fresh_session) as Hwf by (split; simpl; lia).
  split; [exact Hwf|].
  exact (position_stored_whole_or_not decimal_float "DATA:0,1,0,0,1,2"
           (clock_at 1003) fresh_session Hwf).
Defined.

Lemma read_quaternion_needs_four float_of fields :
  ((length fields < 4)%nat \/
   exists i t, (i < 4)%nat /\ fields !! i = Some t /\ float_of t = None) ->
  read_quaternion float_of fields = None.
Proof.
  intros Hbad. unfold read_quaternion.
  destruct (fields !! 0%nat ≫= float_of) as [v0|] eqn:E0; simpl; [|done].
  destruct (fields !! 1%nat ≫= float_of) as [v1|] eqn:E1; simpl; [|done].
  destruct (fields !! 2%nat ≫= float_of) as [v2|] eqn:E2; simpl; [|done].
  destruct (fields !! 3%nat ≫= float_of) as [v3|] eqn:E3; simpl; [|done].
  exfalso.
  apply bind_Some in E0 as (t0 & L0 & F0). apply bind_Some in E1 as (t1 & L1 & F1).
  apply bind_Some in E2 as (t2 & L2 & F2). apply bind_Some in E3 as (t3 & L3 & F3).
  destruct Hbad as [Hlen|(i & t & Hi & Ht & Hnone)].
  - apply lookup_lt_Some in L3. lia.
  - destruct i as [|[|[|[|i]]]]; [| | | |lia]; congruence.
Qed.

(** X6: when one of the four quaternion fields of a line is missing or
    is not read as a number, the line stores nothing: its only effect is
    the append of its text to the raw-line deque (the attitude, the
    trail, the engine flags and the last toggle time are as before). *)
Theorem failed_quaternion_stores_nothing :
  forall float_of line fields clk st,
    line_fields line = Some fields ->
    ((length fields < 4)%nat \/
     exists i t, (i < 4)%nat /\ fields !! i = Some t /\ float_of t = None) ->
    process_line float_of line clk st = record_raw_line line st.
Proof.
  intros float_of line fields clk st Hfields Hbad.
  rewrite process_line_decode. unfold decode_into, record_raw_line.
  rewrite Hfields, parse_fields_state.
  rewrite (read_quaternion_needs_four float_of fields Hbad).
  by destruct (startswith line "DATA:").
Qed.

Lemma failed_quaternion_stores_nothing_witness :
  line_fields "DATA:1,0,zero,0,1,2,3" = Some ["1"; "0"; "zero"; "0"; "1"; "2"; "3"] /\
  decimal_float "zero" = None /\
  process_line decimal_float "DATA:1,0,zero,0,1,2,3" (clock_at 1005) fresh_session
  = record_raw_line "DATA:1,0,zero,0,1,2,3" fresh_session.
Proof.
  split; [reflexivity|]. split; [reflexivity|].
  apply (failed_quaternion_stores_nothing decimal_float _
           ["1"; "0"; "zero"; "0"; "1"; "2"; "3"]); [reflexivity|].
  right. exists 2%nat, "zero". repeat split. lia.
Defined.

(** ** More on the engine flags *)

Lemma read_iteration_engine_tail decode_strip float_of line clk st :
  let st' := read_iteration decode_strip float_of line clk st in
  length (engine_states st') = length (engine_states st) /\
  drop 1 (engine_states st') = drop 1 (engine_states st).
Proof.
  intros st'. subst st'. unfold read_iteration.
  destruct line as [|b line]; [done|].
  rewrite process_line_decode. unfold decode_into.
  change (engine_states (set_raw_serial_lines ?r ?s)) with (engine_states s).
  destruct (startswith _ _); [|done].
  destruct (line_fields _) as [fields|]; [|done].
  destruct (stores_keep_engine float_of fields clk st) as (Hlen & Hdrop & _).
  done.
Qed.

(** X7: whatever the loop reads, it never writes an engine flag other
    than the first: after the loop there are as many flags as before and
    all but flag 0 are unchanged. *)
Theorem loop_keeps_other_engines :
  forall decode_strip float_of reads st,
    let st' := read_loop decode_strip float_of reads st in
    length (engine_states st') = length (engine_states st) /\
    drop 1 (engine_states st') = drop 1 (engine_states st) /\
    engine_states st' !! 1%nat = engine_states st !! 1%nat /\
    engine_states st' !! 2%nat = engine_states st !! 2%nat.
Proof.
  intros decode_strip float_of reads st st'.
  assert (length (engine_states st') = length (engine_states st) /\
          drop 1 (engine_states st') = drop 1 (engine_states st)) as [Hlen Hdrop].
  { subst st'. unfold read_loop. revert st.
    induction reads as [|[line clk] reads IH]; intros st; [done|].
    cbn [foldl fst snd].
    set (st1 := if running st
                then read_iteration decode_strip float_of line clk st else st).
    assert (length (engine_states st1) = length (engine_states st) /\
            drop 1 (engine_states st1) = drop 1 (engine_states st)) as [Hl Hd].
    { subst st1. destruct (running st); [|done].
      apply read_iteration_engine_tail. }
    destruct (IH st1) as [IHl IHd]. by rewrite IHl, IHd. }
  repeat split; try done.
  - by rewrite <- !(lookup_drop _ 1 0), Hdrop.
  - by rewrite <- !(lookup_drop _ 1 1), Hdrop.
Qed.

Lemma toggle_engine_no_start clk st :
  start_time st = None -> toggle_engine clk st = (Raise TypeError, st).
Proof. intros H. unfold_M. by rewrite H. Qed.

(** X8: with no start time (the state [disconnect_serial] leaves), the
    elapsed-time test of the engine placeholder raises and is swallowed by
    the outer [except]: a well-formed line is still applied as a frame,
    and the engine flags and the last toggle time are left alone. *)
Theorem frame_applied_without_start_time :
  forall float_of line fr clk st,
    well_formed float_of line fr ->
    start_time st = None ->
    process_line float_of line clk st = apply_frame fr (record_raw_line line st).
Proof.
  intros float_of line fr clk st (fields & -> & Hlen & Hsep & Hread) Hstart.
  assert (fields <> []) as Hne by (by destruct fields).
  rewrite (process_frame_line float_of fields fr) by done.
  by rewrite toggle_engine_no_start.
Qed.

Lemma frame_applied_without_start_time_witness :
  well_formed decimal_float "DATA:1,0,0,0,1,2,3" (mkFrame 1 0 0 0 1 2 3) /\
  start_time initial_state = None /\
  let st' := process_line decimal_float "DATA:1,0,0,0,1,2,3" (clock_at 5) initial_state in
  position_trail st' = [(1%float, 2%float, 3%float)] /\
  engine_states st' = [false; false; false].
Proof.
  assert (well_formed decimal_float "DATA:1,0,0,0,1,2,3" (mkFrame 1 0 0 0 1 2 3)) as Hline
    by (solve_well_formed ["1"; "0"; "0"; "0"; "1"; "2"; "3"]).
  split; [exact Hline|]. split; [reflexivity|].
  intros st'. subst st'.
  rewrite (frame_applied_without_start_time decimal_float _ _ (clock_at 5)
             initial_state Hline eq_refl).
  split; reflexivity.
Defined.

Lemma toggle_engine_blocked clk st t :
  last_toggle_time st = Some t ->
  PrimFloat.ltb 5%float (PrimFloat.sub (t_since_toggle clk) t) = false ->
  engine_states (snd (toggle_engine clk st)) = engine_states st /\
  last_toggle_time (snd (toggle_engine clk st)) = Some t.
Proof.
  intros Hlast Hsoon. unfold_M.
  destruct (start_time st) as [t0|] eqn:Ht0; simpl; [|done].
  destruct (py_int _) as [e1|]; simpl; [|done].
  destruct (e1 mod 5 =? 0); simpl; [|done].
  rewrite Ht0.
  destruct (py_int _) as [e2|]; simpl; [|done].
  destruct (e2 =? 0); simpl; [done|].
  rewrite Hlast. simpl. rewrite Hlast. simpl. by rewrite Hsoon.
Qed.

Lemma read_iteration_blocked decode_strip float_of line clk st t :
  last_toggle_time st = Some t ->
  PrimFloat.ltb 5%float (PrimFloat.sub (t_since_toggle clk) t) = false ->
  let st' := read_iteration decode_strip float_of line clk st in
  engine_states st' = engine_states st /\ last_toggle_time st' = Some t.
Proof.
  intros Hlast Hsoon st'. subst st'. unfold read_iteration.
  destruct line as [|b line]; [done|].
  rewrite process_line_decode. unfold decode_into.
  change (engine_states (set_raw_serial_lines ?r ?s)) with (engine_states s).
  change (last_toggle_time (set_raw_serial_lines ?r ?s)) with (last_toggle_time s).
  destruct (startswith _ _); [|done].
  destruct (line_fields _) as [fields|]; [|done].
  rewrite parse_fields_state.
  destruct (read_quaternion float_of fields) as [q|]; [|done].
  destruct (read_position float_of fields) as [p|]; [|done].
  destruct (toggle_engine_blocked clk (store_position p (store_quaternion q st)) t
              Hlast Hsoon) as [He Hl].
  done.
Qed.

(** X9: the last toggle time is kept by [disconnect_serial] and by
    [connect_serial], so the 5-second spacing of the toggles holds across
    sessions: an iteration whose clock reading is not more than 5 s after
    the recorded last toggle leaves every engine flag and the record as
    they are, in the same session and in the one opened after a
    disconnect. *)
Theorem toggle_spacing_survives_reconnect :
  forall decode_strip float_of line clk st ax port opens now t,
    last_toggle_time st = Some t ->
    PrimFloat.ltb 5%float (PrimFloat.sub (t_since_toggle clk) t) = false ->
    let same := read_iteration decode_strip float_of line clk st in
    let st1 := connect_serial port opens now (disconnect_serial st ax).1 in
    let next := read_iteration decode_strip float_of line clk st1 in
    engine_states same = engine_states st /\
    last_toggle_time same = Some t /\
    last_toggle_time st1 = Some t /\
    engine_states next = engine_states st1 /\
    last_toggle_time next = Some t.
Proof.
  intros decode_strip float_of line clk st ax port opens now t Hlast Hsoon
    same st1 next.
  assert (last_toggle_time st1 = Some t) as Hlast1.
  { subst st1. unfold connect_serial, disconnect_serial.
    destruct port; [|destruct opens]; simpl; by destruct (ser_is_open st). }
  destruct (read_iteration_blocked decode_strip float_of line clk st t Hlast Hsoon)
    as [He Hl].
  destruct (read_iteration_blocked decode_strip float_of line clk st1 t Hlast1 Hsoon)
    as [He1 Hl1].
  done.
Qed.

Lemma toggle_spacing_survives_reconnect_witness :
  let toggled := process_line decimal_float "DATA:1,0,0,0,0,0,0" (clock_at 1005)
                   fresh_session in
  let st1 := connect_serial "COM3" true 1005 (disconnect_serial toggled default_axes).1 in
  let clk := clock_at 1010 in
  last_toggle_time toggled = Some 1005%float /\
  PrimFloat.ltb 5 (PrimFloat.sub (t_since_toggle clk) 1005) = false /\
  start_time st1 = Some 1005%float /\
  py_int (PrimFloat.sub (t_guard_mod clk) 1005) = Ok 5 /\
  engine_states
    (read_iteration ascii_decode decimal_float
       (list_byte_of_string "DATA:1,0,0,0,0,0,0") (clock_at 1015) st1)
  = [true; false; false] /\
  engine_states
    (read_iteration ascii_decode decimal_float
       (list_byte_of_string "DATA:1,0,0,0,0,0,0") clk st1)
  = engine_states st1.
Proof.
  intros toggled st1 clk.
  split; [reflexivity|]. split; [reflexivity|]. split; [reflexivity|].
  split; [reflexivity|]. split; [reflexivity|].
  exact (proj1 (proj2 (proj2 (proj2
           (toggle_spacing_survives_reconnect ascii_decode decimal_float
              (list_byte_of_string "DATA:1,0,0,0,0,0,0") clk toggled default_axes
              "COM3" true 1005 1005 eq_refl eq_refl))))).
Defined.

(** ** Disconnecting and connecting again *)

(** X10: in every configuration the two threads can reach,
    [disconnect_serial] leaves the state the module had when it was
    loaded (port closed, loop flag off, no start time, identity
    attitude, empty deques, flags off) and the default plot limits; the
    one thing it keeps is the last toggle time. *)
Theorem disconnect_restores_load_state :
  forall decode_strip float_of returns c,
    reachable decode_strip float_of returns c ->
    disconnect_serial (shared c) (limits c)
    = (set_last_toggle_time (last_toggle_time (shared c)) initial_state, default_axes).
Proof.
  intros decode_strip float_of returns c Hreach.
  destruct (reachable_inv decode_strip float_of returns c Hreach)
    as [[_ _ _ _ _ _ _ Hes _] Hflags _ _].
  assert (ser_is_open (shared c) = false -> running (shared c) = false) as Hrun.
  { intros Hclosed. destruct (main_thread c); simpl in Hflags;
      [congruence|destruct Hflags; congruence..]. }
  unfold disconnect_serial. f_equal.
  destruct (shared c) as [o r t0 lq x y z es raw last]. simpl in *.
  rewrite clear_engines_all_false.
  destruct o; simpl; rewrite Hes; unfold initial_state; simpl; [done|].
  by rewrite Hrun.
Qed.

Lemma disconnect_restores_load_state_witness :
  let c := run ascii_decode decimal_float always_returns engine_toggled initial_config in
  reachable ascii_decode decimal_float always_returns c /\
  engine_states (shared c) = [true; false; false] /\
  last_toggle_time (shared c) = Some 1005%float /\
  disconnect_serial (shared c) (limits c)
  = (set_last_toggle_time (Some 1005%float) initial_state, default_axes).
Proof.
  intros c.
  assert (reachable ascii_decode decimal_float always_returns c) as Hreach
    by (by exists engine_toggled).
  split; [exact Hreach|]. split; [reflexivity|]. split; [reflexivity|].
  exact (disconnect_restores_load_state ascii_decode decimal_float always_returns c Hreach).
Defined.

Section StartTime.

Variable decode_strip : list Byte.byte -> string.
Variable float_of : string -> option float.
Variable returns : plot_call -> bool.

Lemma loop_step_start sl e :
  let sl' := loop_step decode_strip float_of sl e in
  (is_Some (start_time sl.1) -> is_Some (start_time sl'.1)) /\
  ((in_loop sl.2 = true -> is_Some (start_time sl.1)) ->
   in_loop sl'.2 = true -> is_Some (start_time sl'.1)).
Proof.
  destruct sl as [st l].
  destruct l as [| | |[|s rest]], e as [|now|line clk]; simpl; try (split; auto; done).
  - split; [done|]. by destruct (start_time st).
  - destruct (running st); simpl; split; auto.
  - destruct (running st); simpl; split; auto.
  - destruct (exec_stmt_fixed s st) as (_ & _ & Ht).
    destruct (exec_stmt s st) as [st' go]. simpl in *. rewrite Ht. split; auto.
Qed.

Lemma loop_run_start es sl :
  let sl' := loop_run decode_strip float_of es sl in
  (is_Some (start_time sl.1) -> is_Some (start_time sl'.1)) /\
  ((in_loop sl.2 = true -> is_Some (start_time sl.1)) ->
   in_loop sl'.2 = true -> is_Some (start_time sl'.1)).
Proof.
  unfold loop_run. revert sl.
  induction es as [|e es IH]; intros sl; simpl; [by split|].
  destruct (IH (loop_step decode_strip float_of sl e)) as [H1 H2].
  destruct (loop_step_start sl e) as [H3 H4]. simpl in *. split; auto.
Qed.

Lemma exec_event_start e c :
  (in_loop (read_thread c) = true -> is_Some (start_time (shared c))) /\
  (main_thread c = Idle -> ser_is_open (shared c) = true ->
   is_Some (start_time (shared c))) ->
  let c' := exec_event decode_strip float_of returns e c in
  (in_loop (read_thread c') = true -> is_Some (start_time (shared c'))) /\
  (main_thread c' = Idle -> ser_is_open (shared c') = true ->
   is_Some (start_time (shared c'))).
Proof.
  intros Hinv. destruct c as [st ax m l].
  pose proof Hinv as [Hloop Hopen]. simpl in Hloop, Hopen.
  destruct e as [e|port opens|now| | | |between];
    cbn [exec_event shared limits main_thread read_thread].
  - destruct (loop_step_start (st, l) e) as [H1 H2].
    destruct (loop_step_grows decode_strip float_of (st, l) e) as (_ & _ & _ & _ & Ho').
    cbn [fst snd] in *. split; [by apply H2|]. intros Hm Ho. apply H1, Hopen; [done|].
    by rewrite <- Ho'.
  - destruct m; try exact Hinv. destruct port; [exact Hinv|].
    destruct (opens && negb (ser_is_open st)); [|exact Hinv]. by split.
  - destruct m; try exact Hinv. by split.
  - destruct m; try exact Hinv. destruct (ser_is_open st); [|exact Hinv]. by split.
  - destruct m; try exact Hinv. by split.
  - destruct (thread_idle l && negb (ser_is_open st)) eqn:Hidle; [|exact Hinv].
    apply andb_prop in Hidle as [_ Hclosed]. apply negb_true_iff in Hclosed.
    destruct m; try exact Hinv; (split; [done|]); simpl; rewrite Hclosed; simpl;
      intros _ Ho; congruence.
  - assert (let sl := tick_at decode_strip float_of between (st, l) MaxZ in
            (in_loop sl.2 = true -> is_Some (start_time sl.1)) /\
            (m = Idle -> ser_is_open sl.1 = true -> is_Some (start_time sl.1))) as Htick.
    { intros sl. subst sl. unfold tick_at.
      set (es := reads_until MaxZ ≫= between).
      destruct (loop_run_start es (st, l)) as [H1 H2].
      destruct (loop_run_grows decode_strip float_of es (st, l)) as (_ & _ & _ & _ & Ho').
      simpl in *. split; [by apply H2|]. intros Hm Ho. apply H1, Hopen; [done|congruence]. }
    destruct m; first [exact Hinv | exact Htick].
Qed.

Lemma run_start events :
  let c := run decode_strip float_of returns events initial_config in
  (in_loop (read_thread c) = true -> is_Some (start_time (shared c))) /\
  (main_thread c = Idle -> ser_is_open (shared c) = true ->
   is_Some (start_time (shared c))).
Proof.
  induction events as [|e events IH] using rev_ind; [by split|].
  unfold run in *. rewrite foldl_app. simpl. by apply exec_event_start.
Qed.

End StartTime.

(** X11: a session has a start time as long as its loop runs.  In
    every reachable configuration in which the read thread is in its
    loop, and in every one in which [connect_serial] has returned with
    the port open, [start_time] is not [None], whichever of line 558
    and line 750 stored last.  The thread stores when its test of line
    557 found [None], even if line 750 ran in between, so the time that
    stays can be the thread's and not the one [connect_serial] took.
    (The resets of [disconnect_serial] come after the dialog of line
    764, when the loop has ended its iteration.) *)
Theorem session_has_start_time :
  forall decode_strip float_of returns c,
    reachable decode_strip float_of returns c ->
    (in_loop (read_thread c) = true -> is_Some (start_time (shared c))) /\
    (main_thread c = Idle -> ser_is_open (shared c) = true ->
     is_Some (start_time (shared c))).
Proof.
  intros decode_strip float_of returns c [events ->]. apply run_start.
Qed.

Lemma session_has_start_time_witness :
  let c := run ascii_decode decimal_float always_returns thread_stores_last
             initial_config in
  reachable ascii_decode decimal_float always_returns c /\
  in_loop (read_thread c) = true /\
  main_thread c = Idle /\
  start_time (shared c) = Some 1001%float /\
  is_Some (start_time (shared c)).
Proof.
  intros c.
  assert (reachable ascii_decode decimal_float always_returns c) as Hreach
    by (by exists thread_stores_last).
  split; [exact Hreach|]. split; [reflexivity|]. split; [reflexivity|].
  split; [reflexivity|].
  exact (proj1 (session_has_start_time ascii_decode decimal_float always_returns c Hreach)
           eq_refl).
Defined.

(** ** The render tick *)


Lemma string_app_assoc (a b c : string) : ((a ++ b) ++ c = a ++ (b ++ c))%string.
Proof. induction a as [|x a IH]; simpl; [done|]. by rewrite IH. Qed.

Lemma render_lines_app (ls : list string) (acc : string) :
  foldl (fun text line => (text ++ (line ++ String newline ""))%string) acc ls
  = (acc ++ foldl (fun text line => (text ++ (line ++ String newline ""))%string)
              "" ls)%string.
Proof.
  revert acc. induction ls as [|l ls IH]; intros acc; simpl.
  - clear. induction acc as [|x acc IH]; simpl; congruence.
  - rewrite IH. rewrite (IH (l ++ String newline "")%string).
    by rewrite string_app_assoc.
Qed.

Lemma display_rows_quiet arrivals k rest text :
  (forall j, (k <= j <= k + length rest)%nat -> arrivals j = []) ->
  display_rows arrivals k rest text
  = (Displayed, foldl (fun text line => text ++ (line ++ String newline "")) text rest).
Proof.
  revert k text. induction rest as [|l rest IH]; intros k text Hq; simpl.
  - by rewrite Hq by lia.
  - rewrite Hq by lia. apply IH. intros j Hj. apply Hq. simpl. lia.
Qed.

Lemma display_rows_mutated arrivals k n rest text :
  (n <= length rest)%nat ->
  (forall j, (k <= j < k + n)%nat -> arrivals j = []) ->
  arrivals (k + n)%nat <> [] ->
  display_rows arrivals k rest text
  = (DequeMutated,
     foldl (fun text line => text ++ (line ++ String newline "")) text (take n rest)).
Proof.
  revert k n text. induction rest as [|l rest IH]; intros k n text Hn Hq Hm; simpl.
  - simpl in Hn. assert (n = 0%nat) as -> by lia.
    rewrite Nat.add_0_r in Hm. by destruct (arrivals k).
  - destruct n as [|n].
    + rewrite Nat.add_0_r in Hm. by destruct (arrivals k).
    + rewrite Hq by lia. simpl. apply IH.
      * simpl in Hn. lia.
      * intros j Hj. apply Hq. lia.
      * by replace (S k + n)%nat with (k + S n)%nat by lia.
Qed.

(** The rows cut at the newlines are the lines, followed by the empty
    row after the last newline. *)
Lemma rows_split ls :
  Forall (fun l => has_char newline l = false) ls ->
  py_split newline (foldl (fun text line => text ++ (line ++ String newline "")) "" ls)
  = (ls ++ [""])%list.
Proof.
  induction ls as [|l ls IH]; intros Hclean; [done|].
  apply Forall_cons in Hclean as [Hl Hls].
  cbn [foldl]. rewrite render_lines_app. simpl.
  rewrite string_app_assoc. simpl.
  rewrite py_split_cut by done. by rewrite (IH Hls).
Qed.

Lemma deque_append_Forall {A} (P : A -> Prop) n x d :
  Forall P d -> P x -> Forall P (deque_append n x d).
Proof.
  intros Hd Hx. unfold deque_append.
  assert (Forall P (d ++ [x])) as H by (apply Forall_app; split; [done|by constructor]).
  destruct (decide _); [by apply Forall_drop|done].
Qed.

Lemma deque_extend_Forall {A} (P : A -> Prop) n d xs :
  Forall P d -> Forall P xs -> Forall P (deque_extend n d xs).
Proof.
  revert d. induction xs as [|x xs IH]; intros d Hd Hxs; [done|].
  apply Forall_cons in Hxs as [Hx Hxs].
  apply IH; [by apply deque_append_Forall|done].
Qed.

(** X13: the raw-data text shows the raw lines one per row, as far as
    the loop of lines 714-715 gets.  With no raw line the widget is not
    touched.  Otherwise, no raw line holding a newline: when the read
    thread appends nothing while the rows are written, the loop comes
    to its end and the text cut at the newlines is the lines of the
    deque, in order, followed by one empty row; when the read thread
    appends for the first time before step n of the iterator, the loop
    ends with the error of a deque mutated during iteration and the text
    holds the first n lines only. *)
Theorem raw_display_round_trip :
  forall st old before_loop arrivals,
    Forall (fun l => has_char newline l = false) (raw_serial_lines st) ->
    Forall (fun l => has_char newline l = false) before_loop ->
    let d := deque_extend 200 (raw_serial_lines st) before_loop in
    let shown := update_raw_serial_display before_loop arrivals st old in
    (raw_serial_lines st = [] -> shown = (Displayed, old)) /\
    (raw_serial_lines st <> [] ->
     (forall j, (j <= length d)%nat -> arrivals j = []) ->
     shown.1 = Displayed /\ py_split newline shown.2 = (d ++ [""])%list) /\
    (raw_serial_lines st <> [] ->
     forall n, (n <= length d)%nat ->
       (forall j, (j < n)%nat -> arrivals j = []) -> arrivals n <> [] ->
       shown.1 = DequeMutated /\ py_split newline shown.2 = (take n d ++ [""])%list).
Proof.
  intros st old before_loop arrivals Hclean Hbefore d shown.
  assert (Forall (fun l => has_char newline l = false) d) as Hd
    by by apply deque_extend_Forall.
  subst shown. unfold update_raw_serial_display. fold d.
  split; [|split].
  - by intros ->.
  - intros Hne Hquiet.
    destruct (raw_serial_lines st) as [|l0 ls0] eqn:E; [done|]. cbn [nonempty].
    rewrite display_rows_quiet by (intros j Hj; apply Hquiet; lia).
    split; [done|]. by apply rows_split.
  - intros Hne n Hn Hquiet Hmut.
    destruct (raw_serial_lines st) as [|l0 ls0] eqn:E; [done|]. cbn [nonempty].
    rewrite (display_rows_mutated arrivals 0 n) by (done || intros j Hj; apply Hquiet; lia).
    split; [done|]. apply rows_split. by apply Forall_take.
Qed.

Lemma raw_display_round_trip_witness :
  let st := set_raw_serial_lines ["DATA:1,0,0,0,1,2,3"; "hello"] initial_state in
  let arrivals k := match k with 1%nat => ["late"] | _ => [] end in
  Forall (fun l => has_char newline l = false) (raw_serial_lines st) /\
  Forall (fun l => has_char newline l = false) (@nil string) /\
  (update_raw_serial_display [] (fun _ => []) st "old text").1 = Displayed /\
  py_split newline (update_raw_serial_display [] (fun _ => []) st "old text").2
  = ["DATA:1,0,0,0,1,2,3"; "hello"; ""] /\
  (update_raw_serial_display [] arrivals st "old text").1 = DequeMutated /\
  py_split newline (update_raw_serial_display [] arrivals st "old text").2
  = ["DATA:1,0,0,0,1,2,3"; ""].
Proof.
  intros st arrivals.
  assert (Forall (fun l => has_char newline l = false) (raw_serial_lines st)) as Hclean
    by (repeat constructor).
  assert (Forall (fun l => has_char newline l = false) (@nil string)) as Hnone
    by constructor.
  assert (raw_serial_lines st <> []) as Hne by discriminate.
  split; [exact Hclean|]. split; [exact Hnone|].
  destruct (raw_display_round_trip st "old text" [] (fun _ => []) Hclean Hnone)
    as (_ & Hquiet & _).
  destruct (Hquiet Hne (fun _ _ => eq_refl)) as [Hend Hrows].
  split; [exact Hend|]. split; [exact Hrows|].
  destruct (raw_display_round_trip st "old text" [] arrivals Hclean Hnone)
    as (_ & _ & Hmut).
  assert (forall j, (j < 1)%nat -> arrivals j = []) as Hfirst
    by (intros [|j] Hj; [reflexivity|lia]).
  assert (arrivals 1%nat <> []) as Hlate by discriminate.
  assert (1 <= length (deque_extend 200 (raw_serial_lines st) []))%nat as Hlen
    by (vm_compute; lia).
  exact (Hmut Hne 1%nat Hlen Hfirst Hlate).
Defined.

(** X14: in every configuration the two threads can reach,
    [update_engine_visuals] runs to its end (no index is out of range)
    and fills circle i with the accent green exactly when engine flag i
    is set, with the background colour otherwise, whatever the circles
    showed before. *)
Theorem engine_circles_follow_flags :
  forall decode_strip float_of returns c fills,
    reachable decode_strip float_of returns c ->
    length fills = 3%nat ->
    update_engine_visuals (shared c) fills
    = (Ok tt, engine_colour <$> engine_states (shared c)).
Proof.
  intros decode_strip float_of returns c fills Hreach Hfills.
  destruct (reachable_inv decode_strip float_of returns c Hreach)
    as [[_ _ _ _ _ _ _ Hes _] _ _ _].
  unfold update_engine_visuals.
  destruct (engine_states (shared c)) as [|e0 [|e1 [|e2 [|e3 es]]]]; try done.
  by destruct fills as [|f0 [|f1 [|f2 [|f3 fills]]]].
Qed.

Lemma engine_circles_follow_flags_witness :
  let c := run ascii_decode decimal_float always_returns engine_toggled initial_config in
  reachable ascii_decode decimal_float always_returns c /\
  length [DARK_BG_COLOR; DARK_BG_COLOR; ACCENT_GREEN] = 3%nat /\
  update_engine_visuals (shared c) [DARK_BG_COLOR; DARK_BG_COLOR; ACCENT_GREEN]
  = (Ok tt, [ACCENT_GREEN; DARK_BG_COLOR; DARK_BG_COLOR]).
Proof.
  intros c.
  assert (reachable ascii_decode decimal_float always_returns c) as Hreach
    by (by exists engine_toggled).
  split; [exact Hreach|]. split; [reflexivity|].
  exact (engine_circles_follow_flags ascii_decode decimal_float always_returns c
           [DARK_BG_COLOR; DARK_BG_COLOR; ACCENT_GREEN] Hreach eq_refl).
Defined.

(** ** Sending commands *)


(** X16: a predefined command is sent once.  With the port open, the
    click on a command button followed by a click on send that goes
    through writes the command and a newline whatever the entry held
    before, and leaves the entry empty, so that a second click on send
    writes nothing more and shows the "No Command" warning. *)
Theorem predefined_command_sent_once :
  forall encode raises st p command,
    ser_is_open st = true ->
    command <> "" ->
    let p1 := send_typed_command encode None st (populate_command_entry command p) in
    let p2 := send_typed_command encode raises st p1 in
    written p1 = (written p ++ [encode (command ++ String newline "")%string])%list /\
    command_entry p1 = "" /\
    dialogs p1 = dialogs p /\
    written p2 = written p1 /\
    dialogs p2 = (dialogs p ++ [NoCommandWarning])%list.
Proof.
  intros encode raises st p command Hopen Hcmd p1 p2. subst p2 p1.
  unfold send_typed_command, populate_command_entry. rewrite Hopen. simpl.
  by destruct command as [|c command].
Qed.

Lemma predefined_command_sent_once_witness :
  let p := mkPanel "typed before" [] [] in
  let p1 := send_typed_command list_byte_of_string None fresh_session
              (populate_command_entry "Abort-RTLS" p) in
  ser_is_open fresh_session = true /\
  "Abort-RTLS" <> "" /\
  written p1 = [list_byte_of_string ("Abort-RTLS" ++ String newline "")%string] /\
  command_entry p1 = "" /\
  written (send_typed_command list_byte_of_string None fresh_session p1) = written p1.
Proof.
  intros p p1.
  assert ("Abort-RTLS" <> "") as Hcmd by discriminate.
  split; [reflexivity|]. split; [exact Hcmd|].
  destruct (predefined_command_sent_once list_byte_of_string None fresh_session p
              "Abort-RTLS" eq_refl Hcmd) as (Hw & He & _ & Hw2 & _).
  split; [exact Hw|]. split; [exact He | exact Hw2].
Defined.

(** The outcome the error box hides: the command is on the wire, the
    box says the send failed, and the entry still holds the text. *)
Lemma sent_and_reported_failed :
  let p := mkPanel "Abort-RTLS" [] [] in
  let p' := send_typed_command list_byte_of_string (Some AtPrint) fresh_session p in
  written p' = [list_byte_of_string ("Abort-RTLS" ++ String newline "")%string] /\
  dialogs p' = [SendError] /\
  command_entry p' = "Abort-RTLS".
Proof. repeat split. Qed.
